(** * Migration scripts of the narrator rule configuration

    A shallow embedding of the four scripts under [.scratch/]
    ([update_captures.py], [update_narrator_rules.py],
    [update_narrator_rules_v2.py], [fix_filename_captures.py]) that rewrite
    [narrator/narrator-rules.json], and the properties of the rule
    configuration they do or do not maintain.

    The scripts work on what [json.load] returns: nested Python dicts,
    lists, strings, numbers, booleans and [None].  A dict is modelled as an
    association list in insertion order, a Python exception as a value of
    [pyerr], and every statement of a script as a function from the loaded
    value to a [result].  A value loaded from JSON is a tree (no object is
    reachable twice), so an in place update of a nested object is the same
    as writing the updated object back where it was read.  No statement of
    the scripts looks into a number, so numbers are kept as integers.  A
    Python string is kept as the bytes of its generalized UTF-8 form, in
    which a lone surrogate (what an escape such as [\ud800] in the file
    loads as) is the three bytes [ED], [A0]-[BF], [80]-[BF]. *)

From Stdlib Require Import String Ascii List Bool Arith ZArith Lia.
From Stdlib Require Import DecimalString DecimalNat.
Import ListNotations.
Local Open Scope string_scope.
Local Open Scope list_scope.

(** ** Values loaded from the configuration file *)

Local Set Warnings "-register-all".

Inductive json : Type :=
| JNull
| JBool (b : bool)
| JNum (n : Z)
| JStr (s : string)
| JArr (xs : list json)
| JObj (kvs : list (string * json)).

(** ** Exceptions and the error monad *)

Inductive pyerr : Type :=
| KeyError (k : string)
| TypeError
| AttributeError
| FileNotFoundError
| JSONDecodeError
| UnicodeDecodeError
| UnicodeEncodeError.

Inductive result (A : Type) : Type :=
| OK (a : A)
| Raise (e : pyerr).
Arguments OK {A} a.
Arguments Raise {A} e.

Definition bind {A B : Type} (c : result A) (f : A -> result B) : result B :=
  match c with
  | OK a => f a
  | Raise e => Raise e
  end.

Declare Scope py_scope.
Delimit Scope py_scope with py.
Notation "x <- c ;; k" := (bind c (fun x => k))
  (at level 61, c at next level, right associativity) : py_scope.
Notation "' p <- c ;; k" := (bind c (fun x => let p := x in k))
  (at level 61, p pattern, c at next level, right associativity) : py_scope.
Local Open Scope py_scope.

(** [for x in xs: acc.append(f(x))], stopping at the first exception. *)
Fixpoint mapM {A B : Type} (f : A -> result B) (xs : list A) : result (list B) :=
  match xs with
  | [] => OK []
  | x :: rest =>
      y <- f x ;;
      ys <- mapM f rest ;;
      OK (y :: ys)
  end.

(** [for x in xs: state = f(x, state)], stopping at the first exception. *)
Fixpoint foldM {A S : Type} (f : A -> S -> result S) (xs : list A) (s : S) : result S :=
  match xs with
  | [] => OK s
  | x :: rest => s' <- f x s ;; foldM f rest s'
  end.

(** ** Python dicts as association lists in insertion order *)

Definition dict := list (string * json).

Definition keys (d : dict) : list string := map fst d.

Fixpoint dict_get (k : string) (d : dict) : option json :=
  match d with
  | [] => None
  | (k', v) :: rest => if String.eqb k k' then Some v else dict_get k rest
  end.

Definition dict_mem (k : string) (d : dict) : bool :=
  match dict_get k d with Some _ => true | None => false end.

(** [d[k] = v]: an existing key keeps its position, a new one goes last. *)
Fixpoint dict_set (k : string) (v : json) (d : dict) : dict :=
  match d with
  | [] => [(k, v)]
  | (k', v') :: rest =>
      if String.eqb k k' then (k', v) :: rest else (k', v') :: dict_set k v rest
  end.

(** [del d[k]] once [k] is known to be a key. *)
Definition dict_del (k : string) (d : dict) : dict :=
  filter (fun kv => negb (String.eqb k (fst kv))) d.

Fixpoint nodup_keys (ks : list string) : bool :=
  match ks with
  | [] => true
  | k :: rest => negb (existsb (String.eqb k) rest) && nodup_keys rest
  end.

(** ** The Python operations the scripts use *)

(** [needle in haystack] on two strings. *)
Definition str_contains (needle haystack : string) : bool :=
  match String.index 0 needle haystack with Some _ => true | None => false end.

Definition is_str (k : string) (v : json) : bool :=
  match v with JStr s => String.eqb k s | _ => false end.

(** [k in o] for a string [k]. *)
Definition py_contains (k : string) (o : json) : result bool :=
  match o with
  | JObj d => OK (dict_mem k d)
  | JArr xs => OK (existsb (is_str k) xs)
  | JStr s => OK (str_contains k s)
  | _ => Raise TypeError
  end.

(** [o[k]] for a string [k]. *)
Definition py_getitem (o : json) (k : string) : result json :=
  match o with
  | JObj d => match dict_get k d with Some v => OK v | None => Raise (KeyError k) end
  | _ => Raise TypeError
  end.

(** [o[k] = v] for a string [k]. *)
Definition py_setitem (o : json) (k : string) (v : json) : result json :=
  match o with
  | JObj d => OK (JObj (dict_set k v d))
  | _ => Raise TypeError
  end.

(** [del o[k]] for a string [k]. *)
Definition py_delitem (o : json) (k : string) : result json :=
  match o with
  | JObj d => if dict_mem k d then OK (JObj (dict_del k d)) else Raise (KeyError k)
  | _ => Raise TypeError
  end.

(** [o.append(v)]. *)
Definition py_append (o : json) (v : json) : result json :=
  match o with
  | JArr xs => OK (JArr (xs ++ [v]))
  | _ => Raise AttributeError
  end.

Fixpoint chars (s : string) : list json :=
  match s with
  | EmptyString => []
  | String c rest => JStr (String c EmptyString) :: chars rest
  end.

(** The elements [for x in o] runs through: the items of a list, the keys of
    a dict, the characters of a string. *)
Definition py_iter (o : json) : result (list json) :=
  match o with
  | JArr xs => OK xs
  | JObj d => OK (map JStr (keys d))
  | JStr s => OK (chars s)
  | _ => Raise TypeError
  end.

(** [o.items()] and [o.keys()], which only a dict has. *)
Definition py_items (o : json) : result dict :=
  match o with
  | JObj d => OK d
  | _ => Raise AttributeError
  end.

Definition py_keys (o : json) : result (list string) :=
  match o with
  | JObj d => OK (keys d)
  | _ => Raise AttributeError
  end.

(** [f] run on the object [o[k]], which is updated in place: the dict [o]
    afterwards holds the updated object under [k]. *)
Definition with_item (o : json) (k : string) (f : json -> result json) : result json :=
  v <- py_getitem o k ;;
  v' <- f v ;;
  py_setitem o k v'.

(** ** The statements of the scripts *)

(** [update_narrator_rules_v2.py], lines 9-10:
    [if section in data: del data[section]]. *)
Definition drop_section (section : string) (data : json) : result json :=
  present <- py_contains section data ;;
  if present then py_delitem data section else OK data.

(** [data['rules'][rule]['default'] = template]. *)
Definition set_default (rule template : string) (data : json) : result json :=
  with_item data "rules" (fun rs =>
    with_item rs rule (fun r => py_setitem r "default" (JStr template))).

(** [data['rules'][rule]['captures'] = [...]]. *)
Definition set_captures (rule : string) (captures : list json) (data : json) : result json :=
  with_item data "rules" (fun rs =>
    with_item rs rule (fun r => py_setitem r "captures" (JArr captures))).

(** [update_narrator_rules_v2.py], lines 23-28 (and 32-37, 41-46, 50-55,
    59-64):
    [if 'captures' not in data['rules'][rule]: data['rules'][rule]['captures'] = []]
    then [data['rules'][rule]['captures'].append(capture)];
    [append_capture] is what the two statements do to the rule
    [data['rules'][rule]]. *)
Definition append_capture (capture : json) (r : json) : result json :=
  present <- py_contains "captures" r ;;
  r1 <- (if present then OK r else py_setitem r "captures" (JArr [])) ;;
  with_item r1 "captures" (fun cs => py_append cs capture).

Definition add_capture (rule : string) (capture : json) (data : json) : result json :=
  with_item data "rules" (fun rs => with_item rs rule (append_capture capture)).

(** [update_captures.py], lines 14-16: [{'inputKey': capture['inputKey']}]. *)
Definition keep_input_key (capture : json) : result json :=
  v <- py_getitem capture "inputKey" ;;
  OK (JObj [("inputKey", v)]).

(** [update_captures.py], lines 10-17, the body of the loop over the rules. *)
Definition strip_rule (rules : json) : result json :=
  present <- py_contains "captures" rules ;;
  if present then
    cs <- py_getitem rules "captures" ;;
    elems <- py_iter cs ;;
    new_captures <- mapM keep_input_key elems ;;
    py_setitem rules "captures" (JArr new_captures)
  else OK rules.

Definition strip_entry (kv : string * json) : result (string * json) :=
  r <- strip_rule (snd kv) ;;
  OK (fst kv, r).

(** [update_captures.py], lines 9-17:
    [for tool_name, rules in data['rules'].items(): ...]. *)
Definition strip_capture_fields (data : json) : result json :=
  rs <- py_getitem data "rules" ;;
  items <- py_items rs ;;
  items' <- mapM strip_entry items ;;
  py_setitem data "rules" (JObj items').

(** [update_narrator_rules.py], line 16. *)
Definition is_mcp (key : string) : bool :=
  String.prefix "mcp__serena__" key || String.prefix "mcp__ide__" key.

(** [del data['rules'][key]]. *)
Definition delete_rule (key : string) (data : json) : result json :=
  with_item data "rules" (fun rs => py_delitem rs key).

(** [update_narrator_rules.py], lines 14-20, for a predicate on the rule
    name: the names collected in [rules_to_remove], then deleted one by
    one.  The second component is [rules_to_remove]. *)
Definition remove_rules (p : string -> bool) (data : json) : result (json * list string) :=
  rs <- py_getitem data "rules" ;;
  ks <- py_keys rs ;;
  let rules_to_remove := filter p ks in
  data' <- foldM delete_rule rules_to_remove data ;;
  OK (data', rules_to_remove).

(** ** Sequences of statements *)

Inductive op : Type :=
| DropSection (section : string)
| SetDefault (rule template : string)
| SetCaptures (rule : string) (captures : list json)
| AddCapture (rule : string) (capture : json)
| StripCaptureFields
| RemoveRules (p : string -> bool).

Definition apply_op (o : op) (data : json) : result json :=
  match o with
  | DropSection section => drop_section section data
  | SetDefault rule template => set_default rule template data
  | SetCaptures rule captures => set_captures rule captures data
  | AddCapture rule capture => add_capture rule capture data
  | StripCaptureFields => strip_capture_fields data
  | RemoveRules p => '(data', _) <- remove_rules p data ;; OK data'
  end.

Definition run_ops (ops : list op) (data : json) : result json :=
  foldM apply_op ops data.

(** ** The scripts: load, transform, dump, print *)

(** [s.encode('utf-8')] raises on exactly the strings with a surrogate: in
    generalized UTF-8 the byte [ED] followed by a byte from [A0] on. *)
Fixpoint has_surrogate (s : string) : bool :=
  match s with
  | EmptyString => false
  | String a rest =>
      match rest with
      | EmptyString => false
      | String b _ =>
          (N.eqb (N_of_ascii a) 237 && N.leb 160 (N_of_ascii b)) || has_surrogate rest
      end
  end.

Definition encodable (s : string) : bool := negb (has_surrogate s).

(** [json.dump(data, f, ensure_ascii=False, indent=2)] to a file opened with
    [encoding='utf-8'] runs through exactly when every string of the
    document, keys included, can be encoded. *)
Fixpoint dumpable (j : json) : bool :=
  match j with
  | JStr s => encodable s
  | JArr xs => forallb dumpable xs
  | JObj kvs => forallb (fun kv => encodable (fst kv) && dumpable (snd kv)) kvs
  | _ => true
  end.

(** Why [open] and [json.load] do not give a document. *)
Inductive unreadable : Type :=
| NoSuchFile
| NotJson
| NotUtf8.

Definition load_error (u : unreadable) : pyerr :=
  match u with
  | NoSuchFile => FileNotFoundError
  | NotJson => JSONDecodeError
  | NotUtf8 => UnicodeDecodeError
  end.

(** [narrator/narrator-rules.json], as [open] and [json.load] see it: the
    file holds the text of a document, or they raise. *)
Inductive storage : Type :=
| Loads (data : json)
| Refuses (why : unreadable).

(** [json.load] at the start, the statements, then [open(..., 'w')] with the
    one [json.dump], and the [print] at the end.  An exception ends the
    script where it is raised.  [open(..., 'w')] empties the file and
    [json.dump] writes the text piece by piece, so when a string cannot be
    encoded the file is left with the beginning of the text, which is not
    JSON, and nothing is printed. *)
Definition run_script (body : json -> result (json * string)) (file : storage)
  : storage * result string :=
  match file with
  | Refuses why => (file, Raise (load_error why))
  | Loads data =>
      match body data with
      | OK (data', out) =>
          if dumpable data' then (Loads data', OK out)
          else (Refuses NotJson, Raise UnicodeEncodeError)
      | Raise e => (file, Raise e)
      end
  end.

Definition run_batch (ops : list op) (out : string) (file : storage)
  : storage * result string :=
  run_script (fun data => data' <- run_ops ops data ;; OK (data', out)) file.

Definition cap_path (key : string) : json :=
  JObj [("inputKey", JStr key); ("parseFileType", JBool true)].

Definition cap_filename : json := JObj [("inputKey", JStr "filename")].

Definition update_captures_ops : list op := [StripCaptureFields].

Definition update_captures : storage -> storage * result string :=
  run_batch update_captures_ops
    "Updated narrator-rules.json to remove placeholder fields from captures".

Definition string_of_nat (n : nat) : string :=
  NilEmpty.string_of_uint (Nat.to_uint n).

(** The f-string of [update_narrator_rules.py], line 26. *)
Definition removed_message (n : nat) : string :=
  "Removed " ++ string_of_nat n ++ " MCP tool entries from rules section".

Definition update_narrator_rules : storage -> storage * result string :=
  run_script (fun data =>
    '(data', rules_to_remove) <- remove_rules is_mcp data ;;
    OK (data', removed_message (length rules_to_remove))).

Definition update_narrator_rules_v2_ops : list op :=
  [ DropSection "extensionTemplates";
    SetDefault "Read" "{filetype}「{filename}」を読み込みます";
    SetCaptures "Read" [cap_path "file_path"];
    SetDefault "Write" "{filetype}「{filename}」を作成します";
    AddCapture "Write" (cap_path "file_path");
    SetDefault "Edit" "{filetype}「{filename}」を編集します";
    AddCapture "Edit" (cap_path "file_path");
    SetDefault "NotebookRead" "{filetype}「{filename}」を読み込みます";
    AddCapture "NotebookRead" (cap_path "notebook_path");
    SetDefault "NotebookEdit" "{filetype}「{filename}」を編集します";
    AddCapture "NotebookEdit" (cap_path "notebook_path");
    SetDefault "mcp__serena__read_file" "{filetype}「{file_path}」を読み込みます";
    AddCapture "mcp__serena__read_file" (cap_path "file_path") ].

Definition update_narrator_rules_v2 : storage -> storage * result string :=
  run_batch update_narrator_rules_v2_ops
    "Updated narrator-rules.json with parseFileType captures".

Definition fix_filename_captures_ops : list op :=
  [ SetCaptures "Read" [cap_path "file_path"; cap_filename];
    SetCaptures "Write" [cap_path "file_path"; cap_filename];
    SetCaptures "Edit" [cap_path "file_path"; cap_filename];
    SetCaptures "NotebookRead" [cap_path "notebook_path"; cap_filename];
    SetCaptures "NotebookEdit" [cap_path "notebook_path"; cap_filename] ].

Definition fix_filename_captures : storage -> storage * result string :=
  run_batch fix_filename_captures_ops
    "Updated narrator-rules.json with filename captures".

(** ** The shape of a configuration and its uniqueness invariants *)

(** A capture is a dict with a string under [inputKey]. *)
Definition wf_capture (c : json) : bool :=
  match c with
  | JObj f => match dict_get "inputKey" f with Some (JStr _) => true | _ => false end
  | _ => false
  end.

(** A rule is a dict whose [captures], when present, is a list of captures. *)
Definition wf_rule (r : json) : bool :=
  match r with
  | JObj f =>
      match dict_get "captures" f with
      | None => true
      | Some (JArr cs) => forallb wf_capture cs
      | Some _ => false
      end
  | _ => false
  end.

Definition wf_section (s : json) : bool :=
  match s with
  | JObj rs => forallb (fun kv => wf_rule (snd kv)) rs
  | _ => false
  end.

(** A document is a dict with a [rules] section and maybe a [mcpRules] one. *)
Definition wf_document (data : json) : bool :=
  match data with
  | JObj m =>
      match dict_get "rules" m with Some rs => wf_section rs | None => false end
      && match dict_get "mcpRules" m with Some ms => wf_section ms | None => true end
  | _ => false
  end.

Definition capture_key (c : json) : option string :=
  match c with
  | JObj f => match dict_get "inputKey" f with Some (JStr k) => Some k | _ => None end
  | _ => None
  end.

Definition capture_keys (cs : list json) : list string :=
  flat_map (fun c => match capture_key c with Some k => [k] | None => [] end) cs.

(** No two captures of the rule share an [inputKey]. *)
Definition captures_unique (r : json) : bool :=
  match r with
  | JObj f =>
      match dict_get "captures" f with
      | Some (JArr cs) => nodup_keys (capture_keys cs)
      | _ => true
      end
  | _ => true
  end.






(** The rule [name] of the section [section], and its captures. *)
Definition lookup_rule (section name : string) (data : json) : option json :=
  match data with
  | JObj m =>
      match dict_get section m with
      | Some (JObj rs) => dict_get name rs
      | _ => None
      end
  | _ => None
  end.

Definition rule_captures (r : json) : option json :=
  match r with
  | JObj f => dict_get "captures" f
  | _ => None
  end.




(** ** The relation between a capture and its stripped form *)

(** What the loop leaves of one capture: a dict with its [inputKey] alone. *)
Definition stripped_of (c c' : json) : Prop :=
  exists f v, c = JObj f /\ dict_get "inputKey" f = Some v /\ c' = JObj [("inputKey", v)].

(** ** Documents used as examples *)

(** The document of the spec's scenario C. *)
Definition scenario_c : json :=
  JObj [("rules",
         JObj [("Read",
                JObj [("default", JStr "{file_path}");
                      ("captures",
                       JArr [JObj [("inputKey", JStr "file_path");
                                   ("parseFileType", JBool true);
                                   ("legacyFlag", JStr "x")]])]);
               ("Bash", JObj [("default", JStr "{command}")])])].

(** The document of the spec's scenario D. *)
Definition scenario_d : json :=
  JObj [("rules",
         JObj [("Read", JObj [("default", JStr "{file_path}")]);
               ("mcp__serena__read_file", JObj [("default", JStr "{relative_path}")])]);
        ("mcpRules", JObj [])].

(** A document where [Write] already captures [file_path], as
    [fix_filename_captures.py] leaves it. *)
Definition doc_with_write_capture : json :=
  JObj [("rules",
         JObj [("Read", JObj [("default", JStr "{file_path}")]);
               ("Write",
                JObj [("default", JStr "{file_path}");
                      ("captures", JArr [cap_path "file_path"; cap_filename])])]);
        ("mcpRules", JObj [])].

(** A document whose [Write] rule has no [captures] key. *)
Definition doc_without_captures : json :=
  JObj [("extensionTemplates", JObj [(".py", JStr "Python")]);
        ("rules",
         JObj [("Read", JObj [("default", JStr "{file_path}")]);
               ("Write", JObj [("default", JStr "{file_path}")])])].

(** A document with every rule [update_narrator_rules_v2.py] touches, none
    of them with captures yet. *)
Definition doc_all_tools : json :=
  JObj [("extensionTemplates", JObj [(".py", JStr "Python")]);
        ("rules",
         JObj [("Read", JObj [("default", JStr "{file_path}")]);
               ("Write", JObj [("default", JStr "{file_path}")]);
               ("Edit", JObj [("default", JStr "{file_path}")]);
               ("NotebookRead", JObj [("default", JStr "{notebook_path}")]);
               ("NotebookEdit", JObj [("default", JStr "{notebook_path}")]);
               ("mcp__serena__read_file", JObj [("default", JStr "{relative_path}")])]);
        ("mcpRules", JObj [("mcp__ide__getDiagnostics", JObj [("default", JStr "diagnostics")])])].

(** Two documents with one MCP rule each, under different names. *)
Definition doc_ide_rule : json :=
  JObj [("rules", JObj [("mcp__ide__getDiagnostics", JObj [("default", JStr "diagnostics")])])].

Definition doc_serena_rule : json :=
  JObj [("rules", JObj [("mcp__serena__read_file", JObj [("default", JStr "diagnostics")])])].

(** ** Vocabulary for whole runs *)

(** The names under [rules], in the order of the dict. *)
Definition rule_names (data : json) : list string :=
  match data with
  | JObj m => match dict_get "rules" m with Some (JObj rs) => keys rs | _ => [] end
  | _ => []
  end.

(** The sections a run is asked to drop. *)
Definition dropped_sections (ops : list op) : list string :=
  flat_map (fun o => match o with DropSection s => [s] | _ => [] end) ops.

(** The statement is about another rule than [name]: it writes to a rule of
    another name, deletes rules whose names pass a test [name] fails, or
    drops a section other than [rules]. *)
Definition op_leaves_rule (name : string) (o : op) : bool :=
  match o with
  | DropSection s => negb (String.eqb s "rules")
  | SetDefault r _ => negb (String.eqb r name)
  | SetCaptures r _ => negb (String.eqb r name)
  | AddCapture r _ => negb (String.eqb r name)
  | StripCaptureFields => false
  | RemoveRules p => negb (p name)
  end.

(** The rule [name] of [rules] is a dict whose [captures] is the list [cs]. *)
Definition has_captures (name : string) (cs : list json) (data : json) : Prop :=
  exists f, lookup_rule "rules" name data = Some (JObj f)
            /\ dict_get "captures" f = Some (JArr cs).

(** One assignment of a captures list per entry. *)
Definition assign_captures (table : list (string * list json)) : list op :=
  map (fun e => SetCaptures (fst e) (snd e)) table.

(** The assignments of [fix_filename_captures.py], rule by rule. *)
Definition fix_filename_table : list (string * list json) :=
  [ ("Read", [cap_path "file_path"; cap_filename]);
    ("Write", [cap_path "file_path"; cap_filename]);
    ("Edit", [cap_path "file_path"; cap_filename]);
    ("NotebookRead", [cap_path "notebook_path"; cap_filename]);
    ("NotebookEdit", [cap_path "notebook_path"; cap_filename]) ].

(** A new default and an appended path capture per entry. *)
Definition default_and_append (table : list (string * (string * string))) : list op :=
  flat_map (fun e => [SetDefault (fst e) (fst (snd e));
                      AddCapture (fst e) (cap_path (snd (snd e)))]) table.

(** Lines 21-64 of [update_narrator_rules_v2.py]: rule, template, key. *)
Definition v2_append_table : list (string * (string * string)) :=
  [ ("Write", ("{filetype}「{filename}」を作成します", "file_path"));
    ("Edit", ("{filetype}「{filename}」を編集します", "file_path"));
    ("NotebookRead", ("{filetype}「{filename}」を読み込みます", "notebook_path"));
    ("NotebookEdit", ("{filetype}「{filename}」を編集します", "notebook_path"));
    ("mcp__serena__read_file", ("{filetype}「{file_path}」を読み込みます", "file_path")) ].

(** The statement hands the document nothing ill-formed: an assigned or
    appended capture is a capture, and [rules] is not dropped. *)
Definition op_wf (o : op) : bool :=
  match o with
  | DropSection s => negb (String.eqb s "rules")
  | SetCaptures _ cs => forallb wf_capture cs
  | AddCapture _ c => wf_capture c
  | _ => true
  end.

(** The shape the stripping loop can walk: rules that are dicts, captures
    that are lists of dicts. *)
Definition is_dict (v : json) : bool :=
  match v with JObj _ => true | _ => false end.

Definition rule_shape (r : json) : bool :=
  match r with
  | JObj f =>
      match dict_get "captures" f with
      | None => true
      | Some (JArr cs) => forallb is_dict cs
      | Some _ => false
      end
  | _ => false
  end.

Definition rules_shape (data : json) : bool :=
  match data with
  | JObj m =>
      match dict_get "rules" m with
      | Some (JObj rs) => forallb (fun kv => rule_shape (snd kv)) rs
      | _ => false
      end
  | _ => false
  end.

(** Every capture of the rule, of the document, has an [inputKey]. *)
Definition has_input_key (c : json) : bool :=
  match c with JObj f => dict_mem "inputKey" f | _ => false end.

Definition rule_keys_present (r : json) : bool :=
  match rule_captures r with
  | Some (JArr cs) => forallb has_input_key cs
  | _ => true
  end.

Definition keys_present (data : json) : bool :=
  match data with
  | JObj m =>
      match dict_get "rules" m with
      | Some (JObj rs) => forallb (fun kv => rule_keys_present (snd kv)) rs
      | _ => true
      end
  | _ => true
  end.

(** A document with a capture that has no [inputKey]. *)
Definition doc_capture_without_key : json :=
  JObj [("rules",
         JObj [("Read",
                JObj [("default", JStr "{file_path}");
                      ("captures", JArr [cap_path "file_path"])]);
               ("Bash",
                JObj [("default", JStr "{command}");
                      ("captures", JArr [JObj [("placeholder", JStr "command")]])])])].

(** The statement hands the document only strings that can be encoded. *)
Definition op_dumpable (o : op) : bool :=
  match o with
  | SetDefault _ t => encodable t
  | SetCaptures _ cs => forallb dumpable cs
  | AddCapture _ c => dumpable c
  | _ => true
  end.

(** A document with a lone surrogate, U+D800, as the file text
    [{"rules": {"Read": {"default": "\ud800"}}}] loads. *)
Definition doc_with_surrogate : json :=
  JObj [("rules",
         JObj [("Read",
                JObj [("default",
                       JStr (String (ascii_of_N 237)
                               (String (ascii_of_N 160)
                                  (String (ascii_of_N 128) EmptyString))))])])].

(** ** Facts about the monad and about dicts *)

Lemma bind_OK_inv {A B : Type} (c : result A) (f : A -> result B) (b : B) :
  bind c f = OK b -> exists a, c = OK a /\ f a = OK b.
Proof.
  destruct c as [a|e]; simpl; intros H; [exists a; auto | discriminate].
Qed.

Lemma mapM_Forall2 {A B : Type} (f : A -> result B) (xs : list A) (ys : list B) :
  mapM f xs = OK ys <-> Forall2 (fun x y => f x = OK y) xs ys.
Proof.
  revert ys; induction xs as [|x xs IH]; intros ys; simpl.
  - split; intros H.
    + injection H as <-. constructor.
    + inversion H. reflexivity.
  - split; intros H.
    + apply bind_OK_inv in H as (y & Hy & H).
      apply bind_OK_inv in H as (ys' & Hys & H).
      injection H as <-. constructor; [assumption | now apply IH].
    + inversion H as [|? y ? ys' Hy Hys]; subst.
      rewrite Hy; simpl. apply IH in Hys. rewrite Hys. reflexivity.
Qed.

Lemma dict_get_set_same (k : string) (v : json) (d : dict) :
  dict_get k (dict_set k v d) = Some v.
Proof.
  induction d as [|[k' v'] d IH]; simpl.
  - now rewrite String.eqb_refl.
  - destruct (String.eqb k k') eqn:E; simpl; rewrite E; auto.
Qed.

Lemma dict_get_set_other (k k' : string) (v : json) (d : dict) :
  k <> k' -> dict_get k' (dict_set k v d) = dict_get k' d.
Proof.
  intros Hne. induction d as [|[k0 v0] d IH]; simpl.
  - apply String.eqb_neq in Hne. now rewrite String.eqb_sym, Hne.
  - destruct (String.eqb k k0) eqn:E; simpl.
    + apply String.eqb_eq in E; subst k0.
      assert (String.eqb k' k = false) as ->; [|reflexivity].
      apply String.eqb_neq; congruence.
    + now rewrite IH.
Qed.

Lemma dict_set_set (k : string) (v w : json) (d : dict) :
  dict_set k v (dict_set k w d) = dict_set k v d.
Proof.
  induction d as [|[k' v'] d IH]; simpl.
  - now rewrite String.eqb_refl.
  - destruct (String.eqb k k') eqn:E; simpl; rewrite E; [reflexivity | now rewrite IH].
Qed.

Lemma dict_set_same_value (k : string) (v : json) (d : dict) :
  dict_get k d = Some v -> dict_set k v d = d.
Proof.
  induction d as [|[k' v'] d IH]; simpl; [discriminate|].
  destruct (String.eqb k k') eqn:E; intros H.
  - now injection H as ->.
  - now rewrite IH.
Qed.

Lemma keys_dict_set_present (k : string) (v : json) (d : dict) :
  dict_mem k d = true -> keys (dict_set k v d) = keys d.
Proof.
  unfold dict_mem. induction d as [|[k' v'] d IH]; simpl; [discriminate|].
  destruct (String.eqb k k') eqn:E; simpl; intros H; [reflexivity|].
  f_equal. now apply IH.
Qed.

Lemma dict_get_del_same (k : string) (d : dict) :
  dict_get k (dict_del k d) = None.
Proof.
  induction d as [|[k' v'] d IH]; simpl; [reflexivity|].
  destruct (String.eqb k k') eqn:E; simpl; [assumption | now rewrite E].
Qed.

Lemma dict_get_del_other (k k' : string) (d : dict) :
  k <> k' -> dict_get k' (dict_del k d) = dict_get k' d.
Proof.
  intros Hne. induction d as [|[k0 v0] d IH]; simpl; [reflexivity|].
  destruct (String.eqb k k0) eqn:E; simpl.
  - apply String.eqb_eq in E; subst k0.
    assert (String.eqb k' k = false) as ->; [|assumption].
    apply String.eqb_neq; congruence.
  - now rewrite IH.
Qed.

Lemma dict_del_absent (k : string) (d : dict) :
  dict_get k d = None -> dict_del k d = d.
Proof.
  induction d as [|[k' v'] d IH]; simpl; [reflexivity|].
  destruct (String.eqb k k') eqn:E; simpl; [discriminate|].
  intros H. now rewrite IH.
Qed.

Lemma dict_mem_get (k : string) (d : dict) :
  dict_mem k d = true <-> exists v, dict_get k d = Some v.
Proof.
  unfold dict_mem. destruct (dict_get k d) as [v|]; split; intros H;
    try discriminate; eauto. now destruct H.
Qed.

(** ** Dropping a section *)

Lemma drop_section_obj (section : string) (m : dict) :
  drop_section section (JObj m) = OK (JObj (dict_del section m)).
Proof.
  unfold drop_section, py_contains, py_delitem, bind.
  destruct (dict_mem section m) eqn:E.
  - reflexivity.
  - unfold dict_mem in E. rewrite dict_del_absent; [reflexivity|].
    destruct (dict_get section m); [discriminate | reflexivity].
Qed.

Lemma drop_section_twice (section : string) (data : json) :
  bind (drop_section section data) (drop_section section) = drop_section section data.
Proof.
  destruct data as [| b | n | s | xs | m]; try reflexivity.
  - unfold drop_section, py_contains, py_delitem, bind.
    destruct (str_contains section s) eqn:E; [reflexivity | now rewrite E].
  - unfold drop_section, py_contains, py_delitem, bind.
    destruct (existsb (is_str section) xs) eqn:E; [reflexivity | now rewrite E].
  - rewrite drop_section_obj; simpl. rewrite drop_section_obj.
    rewrite dict_del_absent; [reflexivity | apply dict_get_del_same].
Qed.

(** ** Stripping the captures *)

Lemma keep_input_key_fixed (c c' : json) :
  keep_input_key c = OK c' -> keep_input_key c' = OK c'.
Proof.
  unfold keep_input_key. intros H.
  apply bind_OK_inv in H as (v & _ & H). injection H as <-. reflexivity.
Qed.

Lemma mapM_fixed {A : Type} (f : A -> result A) (xs ys : list A) :
  (forall x y, f x = OK y -> f y = OK y) ->
  mapM f xs = OK ys -> mapM f ys = OK ys.
Proof.
  intros Hf H. apply mapM_Forall2 in H. apply mapM_Forall2.
  induction H; constructor; eauto.
Qed.

(** What a successful [strip_rule] did: nothing when ['captures' in rules]
    is false, and otherwise the rule is a dict whose [captures] was
    replaced by the list of the stripped elements. *)
Lemma strip_rule_OK_inv (r r' : json) :
  strip_rule r = OK r' ->
  (py_contains "captures" r = OK false /\ r' = r)
  \/ (exists f cs elems new,
        r = JObj f /\ dict_get "captures" f = Some cs
        /\ py_iter cs = OK elems /\ mapM keep_input_key elems = OK new
        /\ r' = JObj (dict_set "captures" (JArr new) f)).
Proof.
  unfold strip_rule. intros H.
  apply bind_OK_inv in H as ([|] & Hc & H); [right | left; split; congruence].
  apply bind_OK_inv in H as (cs & Hcs & H).
  apply bind_OK_inv in H as (elems & Hel & H).
  apply bind_OK_inv in H as (new & Hnew & H).
  destruct r as [| | | | | f]; try discriminate.
  simpl in Hcs. destruct (dict_get "captures" f) as [cs0|] eqn:E; [|discriminate].
  injection Hcs as ->. injection H as <-.
  exists f, cs, elems, new. auto.
Qed.

Lemma strip_rule_fixed (r r' : json) :
  strip_rule r = OK r' -> strip_rule r' = OK r'.
Proof.
  intros H. destruct (strip_rule_OK_inv _ _ H) as [[Hc ->] | (f & cs & elems & new & -> & Hg & Hel & Hnew & ->)].
  - unfold strip_rule. rewrite Hc. reflexivity.
  - unfold strip_rule; simpl. unfold dict_mem.
    rewrite dict_get_set_same; simpl.
    rewrite (mapM_fixed _ _ _ keep_input_key_fixed Hnew); simpl.
    now rewrite dict_set_set.
Qed.

Lemma strip_entry_fixed (kv kv' : string * json) :
  strip_entry kv = OK kv' -> strip_entry kv' = OK kv'.
Proof.
  unfold strip_entry. intros H.
  apply bind_OK_inv in H as (r & Hr & H). injection H as <-. simpl.
  now rewrite (strip_rule_fixed _ _ Hr).
Qed.

(** What a successful [strip_capture_fields] did. *)
Lemma strip_capture_fields_OK_inv (data data' : json) :
  strip_capture_fields data = OK data' ->
  exists m rs rs',
    data = JObj m /\ dict_get "rules" m = Some (JObj rs)
    /\ mapM strip_entry rs = OK rs'
    /\ data' = JObj (dict_set "rules" (JObj rs') m).
Proof.
  unfold strip_capture_fields. intros H.
  apply bind_OK_inv in H as (v & Hv & H).
  apply bind_OK_inv in H as (items & Hi & H).
  apply bind_OK_inv in H as (items' & Hm & H).
  destruct data as [| | | | | m]; try discriminate.
  simpl in Hv. destruct (dict_get "rules" m) as [v0|] eqn:E; [|discriminate].
  injection Hv as ->. destruct v as [| | | | | rs]; try discriminate.
  injection Hi as <-. injection H as <-.
  exists m, rs, items'. auto.
Qed.

Lemma strip_capture_fields_twice (data : json) :
  bind (strip_capture_fields data) strip_capture_fields = strip_capture_fields data.
Proof.
  destruct (strip_capture_fields data) as [data'|e] eqn:H; [|reflexivity]. simpl.
  apply strip_capture_fields_OK_inv in H as (m & rs & rs' & -> & Hg & Hm & ->).
  unfold strip_capture_fields; simpl. rewrite dict_get_set_same; simpl.
  rewrite (mapM_fixed _ _ _ strip_entry_fixed Hm); simpl.
  now rewrite dict_set_set.
Qed.

(** C6: stripping the capture fields twice in a row gives what stripping
    once gives, and so does dropping a section twice: on every loaded value
    the second application returns the result of the first unchanged, and
    when the first one raises there is no second. *)
Theorem strip_and_drop_idempotent (data : json) (section : string) :
  bind (strip_capture_fields data) strip_capture_fields = strip_capture_fields data
  /\ bind (drop_section section data) (drop_section section) = drop_section section data.
Proof.
  split; [apply strip_capture_fields_twice | apply drop_section_twice].
Qed.

(** C7: on every document (a dict) dropping a section succeeds; afterwards
    the section is absent and every other section is as before; when the
    section was absent the document is left as it was; and dropping it a
    second time succeeds again and changes nothing. *)
Theorem drop_section_present_or_absent (section : string) (m : dict) :
  exists m',
    drop_section section (JObj m) = OK (JObj m')
    /\ dict_get section m' = None
    /\ (forall k, k <> section -> dict_get k m' = dict_get k m)
    /\ (dict_get section m = None -> m' = m)
    /\ drop_section section (JObj m') = OK (JObj m').
Proof.
  exists (dict_del section m). repeat split.
  - apply drop_section_obj.
  - apply dict_get_del_same.
  - intros k Hk. apply dict_get_del_other. congruence.
  - apply dict_del_absent.
  - rewrite drop_section_obj. f_equal. f_equal.
    apply dict_del_absent, dict_get_del_same.
Qed.

Lemma mapM_total {A B : Type} (f : A -> result B) (xs : list A) :
  (forall x, In x xs -> exists y, f x = OK y) -> exists ys, mapM f xs = OK ys.
Proof.
  induction xs as [|x xs IH]; intros H; simpl.
  - now exists [].
  - destruct (H x (or_introl eq_refl)) as (y & Hy).
    destruct IH as (ys & Hys); [intros; apply H; now right|].
    exists (y :: ys). now rewrite Hy, Hys.
Qed.

Lemma keep_input_key_wf (c : json) :
  wf_capture c = true -> exists c', keep_input_key c = OK c'.
Proof.
  destruct c as [| | | | | f]; try discriminate. simpl.
  unfold keep_input_key; simpl.
  destruct (dict_get "inputKey" f) as [v|]; [|discriminate]. intros _. simpl. eauto.
Qed.

Lemma strip_rule_wf (r : json) :
  wf_rule r = true -> exists r', strip_rule r = OK r'.
Proof.
  destruct r as [| | | | | f]; try discriminate. simpl.
  unfold strip_rule; simpl. unfold dict_mem.
  destruct (dict_get "captures" f) as [cs|]; simpl; [|eauto].
  destruct cs as [| | | | cs |]; try discriminate. intros Hwf. simpl.
  destruct (mapM_total keep_input_key cs) as (new & Hnew).
  - intros c Hc. apply keep_input_key_wf.
    rewrite forallb_forall in Hwf. now apply Hwf.
  - rewrite Hnew. simpl. eauto.
Qed.

(** On a well-formed document the loop of [update_captures.py] runs through. *)
Lemma strip_capture_fields_total (data : json) :
  wf_document data = true -> exists data', strip_capture_fields data = OK data'.
Proof.
  destruct data as [| | | | | m]; try discriminate. simpl.
  intros H. apply andb_prop in H as [H _].
  unfold strip_capture_fields; simpl.
  destruct (dict_get "rules" m) as [rs|]; [|discriminate]. simpl.
  destruct rs as [| | | | | rs]; try discriminate. simpl in *.
  destruct (mapM_total strip_entry rs) as (rs' & Hrs').
  - intros [k r] Hin. rewrite forallb_forall in H.
    destruct (strip_rule_wf r (H _ Hin)) as (r' & Hr').
    unfold strip_entry; simpl. rewrite Hr'. simpl. eauto.
  - rewrite Hrs'. simpl. eauto.
Qed.

Lemma strip_entries_lookup (rs rs' : dict) (name : string) (r : json) :
  Forall2 (fun kv kv' => strip_entry kv = OK kv') rs rs' ->
  dict_get name rs = Some r ->
  exists r', dict_get name rs' = Some r' /\ strip_rule r = OK r'.
Proof.
  induction 1 as [|[k v] [k' v'] rs rs' Hkv _ IH]; simpl; [discriminate|].
  unfold strip_entry in Hkv; simpl in Hkv.
  apply bind_OK_inv in Hkv as (v0 & Hv & Hkv). injection Hkv as <- <-.
  destruct (String.eqb name k); [|assumption].
  intros H; injection H as <-. eauto.
Qed.

(** After a successful run every rule of [rules] is still there under its
    name, replaced by its stripped version. *)
Lemma strip_capture_fields_lookup (data data' : json) (name : string) (r : json) :
  strip_capture_fields data = OK data' ->
  lookup_rule "rules" name data = Some r ->
  exists r', lookup_rule "rules" name data' = Some r' /\ strip_rule r = OK r'.
Proof.
  intros H Hl.
  apply strip_capture_fields_OK_inv in H as (m & rs & rs' & -> & Hg & Hm & ->).
  simpl in *. rewrite Hg in Hl. rewrite dict_get_set_same.
  apply mapM_Forall2 in Hm. eapply strip_entries_lookup; eassumption.
Qed.

Lemma keep_input_key_stripped (c c' : json) :
  keep_input_key c = OK c' -> stripped_of c c'.
Proof.
  unfold keep_input_key. intros H. apply bind_OK_inv in H as (v & Hv & H).
  injection H as <-. destruct c as [| | | | | f]; try discriminate.
  simpl in Hv. destruct (dict_get "inputKey" f) as [v0|] eqn:E; [|discriminate].
  injection Hv as ->. exists f, v. auto.
Qed.

Lemma strip_rule_captures (r r' : json) (cs : list json) :
  strip_rule r = OK r' ->
  rule_captures r = Some (JArr cs) ->
  exists cs', rule_captures r' = Some (JArr cs') /\ Forall2 stripped_of cs cs'.
Proof.
  intros H Hc.
  destruct (strip_rule_OK_inv _ _ H)
    as [[Hn ->] | (f & cs0 & elems & new & -> & Hg & Hel & Hnew & ->)].
  - destruct r as [| | | | | f]; try discriminate. simpl in *.
    unfold dict_mem in Hn. rewrite Hc in Hn. discriminate.
  - simpl in *. rewrite Hg in Hc. injection Hc as ->.
    injection Hel as <-. exists new. split; [apply dict_get_set_same|].
    apply mapM_Forall2 in Hnew.
    revert Hnew. apply Forall2_impl. exact keep_input_key_stripped.
Qed.

Lemma strip_rule_no_captures (r r' : json) (f : dict) :
  strip_rule r = OK r' -> r = JObj f -> dict_get "captures" f = None -> r' = r.
Proof.
  intros H -> Hc.
  destruct (strip_rule_OK_inv _ _ H)
    as [[_ ->] | (f' & cs0 & elems & new & Hf & Hg & _)]; [reflexivity|].
  injection Hf as <-. congruence.
Qed.


Lemma Forall2_nth_error {A B : Type} (R : A -> B -> Prop) (xs : list A) (ys : list B) :
  Forall2 R xs ys ->
  forall i x, nth_error xs i = Some x -> exists y, nth_error ys i = Some y /\ R x y.
Proof.
  induction 1 as [|x0 y0 xs ys Hxy _ IH]; intros [|i] x; simpl; try discriminate.
  - intros H; injection H as <-. eauto.
  - apply IH.
Qed.

Lemma Forall2_same_length {A B : Type} (R : A -> B -> Prop) (xs : list A) (ys : list B) :
  Forall2 R xs ys -> length ys = length xs.
Proof. induction 1; simpl; congruence. Qed.

(** C1, as the code has it: on every well-formed document the stripping
    loop succeeds, and each capture of each rule of [rules] that has a
    captures list is rewritten to a dict holding its [inputKey] and nothing
    else: [parseFileType] and [computed] are dropped with the other keys. *)
Theorem strip_keeps_inputKey_only (data : json) :
  wf_document data = true ->
  exists data',
    strip_capture_fields data = OK data'
    /\ forall name r cs,
         lookup_rule "rules" name data = Some r ->
         rule_captures r = Some (JArr cs) ->
         exists r' cs',
           lookup_rule "rules" name data' = Some r'
           /\ rule_captures r' = Some (JArr cs')
           /\ Forall2 stripped_of cs cs'.
Proof.
  intros Hwf. destruct (strip_capture_fields_total _ Hwf) as (data' & Hs).
  exists data'. split; [assumption|]. intros name r cs Hl Hc.
  destruct (strip_capture_fields_lookup _ _ _ _ Hs Hl) as (r' & Hl' & Hr).
  destruct (strip_rule_captures _ _ _ Hr Hc) as (cs' & Hc' & HF).
  exists r', cs'. auto.
Qed.

Lemma strip_keeps_inputKey_only_witness :
  wf_document scenario_c = true
  /\ exists data',
       strip_capture_fields scenario_c = OK data'
       /\ forall name r cs,
            lookup_rule "rules" name scenario_c = Some r ->
            rule_captures r = Some (JArr cs) ->
            exists r' cs',
              lookup_rule "rules" name data' = Some r'
              /\ rule_captures r' = Some (JArr cs')
              /\ Forall2 stripped_of cs cs'.
Proof.
  split; [reflexivity | apply (strip_keeps_inputKey_only scenario_c); reflexivity].
Defined.

(** C1 fails as stated: in scenario C the capture
    [{inputKey: "file_path", parseFileType: true, legacyFlag: "x"}] becomes
    [{inputKey: "file_path"}], not [{inputKey: "file_path", parseFileType: true}]. *)
Lemma strip_drops_parseFileType :
  exists data' r',
    strip_capture_fields scenario_c = OK data'
    /\ lookup_rule "rules" "Read" data' = Some r'
    /\ rule_captures r' = Some (JArr [JObj [("inputKey", JStr "file_path")]])
    /\ rule_captures r' <> Some (JArr [cap_path "file_path"]).
Proof.
  eexists. eexists. split; [reflexivity|]. split; [reflexivity|].
  split; [reflexivity | discriminate].
Qed.

(** C9: on every well-formed document the stripping loop succeeds and keeps
    every rule of [rules] under its name; a rule with a captures list has
    afterwards a captures list of the same length whose i-th capture is a
    dict made of fields of the i-th capture before, with their values, the
    [inputKey] among them: fields are removed, none is added or changed, and
    no capture is added, removed or moved; a rule without a [captures] key
    is left as it was. *)
Theorem strip_preserves_captures_order (data : json) :
  wf_document data = true ->
  exists data',
    strip_capture_fields data = OK data'
    /\ forall name r,
         lookup_rule "rules" name data = Some r ->
         exists r',
           lookup_rule "rules" name data' = Some r'
           /\ (rule_captures r = None -> r' = r)
           /\ (forall cs,
                 rule_captures r = Some (JArr cs) ->
                 exists cs',
                   rule_captures r' = Some (JArr cs')
                   /\ length cs' = length cs
                   /\ forall i c,
                        nth_error cs i = Some c ->
                        exists f f',
                          c = JObj f
                          /\ nth_error cs' i = Some (JObj f')
                          /\ dict_get "inputKey" f' = dict_get "inputKey" f
                          /\ forall k v, dict_get k f' = Some v -> dict_get k f = Some v).
Proof.
  intros Hwf. destruct (strip_capture_fields_total _ Hwf) as (data' & Hs).
  exists data'. split; [assumption|]. intros name r Hl.
  destruct (strip_capture_fields_lookup _ _ _ _ Hs Hl) as (r' & Hl' & Hr).
  exists r'. split; [assumption|]. split.
  - intros Hn.
    destruct (strip_rule_OK_inv _ _ Hr)
      as [[_ ->] | (f & cs0 & elems & new & -> & Hg & _)]; [reflexivity|].
    simpl in Hn. congruence.
  - intros cs Hc.
    destruct (strip_rule_captures _ _ _ Hr Hc) as (cs' & Hc' & HF).
    exists cs'. split; [assumption|].
    split; [eapply Forall2_same_length; eassumption|].
    intros i c Hi.
    destruct (Forall2_nth_error _ _ _ HF i c Hi) as (c' & Hi' & (f & v & -> & Hv & ->)).
    exists f, [("inputKey", v)]. split; [reflexivity|]. split; [assumption|].
    split; [simpl; now rewrite Hv|].
    intros k w. simpl. destruct (String.eqb k "inputKey") eqn:E; [|discriminate].
    apply String.eqb_eq in E. subst k. intros H. injection H as <-. exact Hv.
Qed.

Lemma strip_preserves_captures_order_witness :
  wf_document doc_with_write_capture = true
  /\ exists data',
       strip_capture_fields doc_with_write_capture = OK data'
       /\ forall name r,
            lookup_rule "rules" name doc_with_write_capture = Some r ->
            exists r',
              lookup_rule "rules" name data' = Some r'
              /\ (rule_captures r = None -> r' = r)
              /\ (forall cs,
                    rule_captures r = Some (JArr cs) ->
                    exists cs',
                      rule_captures r' = Some (JArr cs')
                      /\ length cs' = length cs
                      /\ forall i c,
                           nth_error cs i = Some c ->
                           exists f f',
                             c = JObj f
                             /\ nth_error cs' i = Some (JObj f')
                             /\ dict_get "inputKey" f' = dict_get "inputKey" f
                             /\ forall k v,
                                  dict_get k f' = Some v -> dict_get k f = Some v).
Proof.
  split; [reflexivity
         | apply (strip_preserves_captures_order doc_with_write_capture); reflexivity].
Defined.

(** ** Updating one rule of [rules] *)

Lemma lookup_rule_Some_inv (section name : string) (data r : json) :
  lookup_rule section name data = Some r ->
  exists m rs, data = JObj m /\ dict_get section m = Some (JObj rs) /\ dict_get name rs = Some r.
Proof.
  destruct data as [| | | | | m]; try discriminate. simpl.
  destruct (dict_get section m) as [[| | | | | rs]|] eqn:E; try discriminate.
  intros H. exists m, rs. auto.
Qed.

(** A statement that updates the rule [name] of [rules] in place. *)
Lemma with_rule_OK (name : string) (g : json -> result json) (m rs : dict) (r r' : json) :
  dict_get "rules" m = Some (JObj rs) ->
  dict_get name rs = Some r ->
  g r = OK r' ->
  with_item (JObj m) "rules" (fun rs => with_item rs name g)
  = OK (JObj (dict_set "rules" (JObj (dict_set name r' rs)) m)).
Proof.
  intros Hm Hrs Hg. unfold with_item; simpl.
  rewrite Hm; simpl. rewrite Hrs; simpl. rewrite Hg. reflexivity.
Qed.

Lemma lookup_rule_updated (name : string) (r' : json) (m rs : dict) :
  lookup_rule "rules" name (JObj (dict_set "rules" (JObj (dict_set name r' rs)) m)) = Some r'.
Proof. simpl. rewrite dict_get_set_same. apply dict_get_set_same. Qed.

Lemma lookup_rule_not_updated (name other : string) (r' : json) (m rs : dict) :
  dict_get "rules" m = Some (JObj rs) ->
  other <> name ->
  lookup_rule "rules" other (JObj (dict_set "rules" (JObj (dict_set name r' rs)) m))
  = lookup_rule "rules" other (JObj m).
Proof.
  intros Hm Hne. simpl. rewrite dict_get_set_same, Hm.
  apply dict_get_set_other. congruence.
Qed.

(** The two branches of the append of [update_narrator_rules_v2.py]. *)
Lemma append_capture_absent (c : json) (f : dict) :
  dict_get "captures" f = None ->
  append_capture c (JObj f) = OK (JObj (dict_set "captures" (JArr [c]) f)).
Proof.
  intros H. unfold append_capture. simpl. unfold dict_mem. rewrite H. simpl.
  unfold with_item; simpl. rewrite dict_get_set_same; simpl.
  now rewrite dict_set_set.
Qed.

Lemma append_capture_present (c : json) (f : dict) (cs : list json) :
  dict_get "captures" f = Some (JArr cs) ->
  append_capture c (JObj f) = OK (JObj (dict_set "captures" (JArr (cs ++ [c])) f)).
Proof.
  intros H. unfold append_capture. simpl. unfold dict_mem. rewrite H. simpl.
  unfold with_item; simpl. rewrite H; simpl. reflexivity.
Qed.

Lemma existsb_eqb_In (k : string) (ks : list string) :
  existsb (String.eqb k) ks = true <-> In k ks.
Proof.
  rewrite existsb_exists. split.
  - intros (x & Hin & He). apply String.eqb_eq in He. now subst.
  - intros H. exists k. split; [assumption | apply String.eqb_refl].
Qed.

Lemma nodup_keys_NoDup (ks : list string) : nodup_keys ks = true <-> NoDup ks.
Proof.
  induction ks as [|k ks IH]; simpl.
  - split; [constructor | reflexivity].
  - rewrite andb_true_iff, negb_true_iff, IH. split.
    + intros [Hn Hd]. constructor; [|assumption].
      intros Hin. apply existsb_eqb_In in Hin. congruence.
    + intros H. inversion H as [|? ? Hn Hd]; subst. split; [|assumption].
      destruct (existsb (String.eqb k) ks) eqn:E; [|reflexivity].
      apply existsb_eqb_In in E. contradiction.
Qed.

Lemma capture_keys_app (cs ds : list json) :
  capture_keys (cs ++ ds) = capture_keys cs ++ capture_keys ds.
Proof. unfold capture_keys. apply flat_map_app. Qed.

Lemma nodup_keys_repeated (k : string) (ks : list string) :
  existsb (String.eqb k) ks = true -> nodup_keys (ks ++ [k]) = false.
Proof.
  intros H. apply existsb_eqb_In in H.
  destruct (nodup_keys (ks ++ [k])) eqn:E; [|reflexivity].
  apply nodup_keys_NoDup in E. apply NoDup_remove_2 with (l' := []) in E.
  rewrite app_nil_r in E. contradiction.
Qed.

(** C3, as the code has it: appending a capture whose [inputKey] the rule's
    captures list already holds raises nothing; the capture goes to the end
    of the list, every capture before it stays, and the rule then has two
    captures with that [inputKey]. *)
Theorem add_capture_appends_duplicate
  (rule : string) (c : json) (data : json) (f : dict) (cs : list json) (k : string) :
  lookup_rule "rules" rule data = Some (JObj f) ->
  dict_get "captures" f = Some (JArr cs) ->
  capture_key c = Some k ->
  existsb (String.eqb k) (capture_keys cs) = true ->
  exists data' r',
    add_capture rule c data = OK data'
    /\ lookup_rule "rules" rule data' = Some r'
    /\ rule_captures r' = Some (JArr (cs ++ [c]))
    /\ captures_unique r' = false.
Proof.
  intros Hl Hc Hk Hdup.
  apply lookup_rule_Some_inv in Hl as (m & rs & -> & Hm & Hrs).
  eexists. exists (JObj (dict_set "captures" (JArr (cs ++ [c])) f)). split.
  - unfold add_capture. eapply with_rule_OK; try eassumption.
    apply append_capture_present; eassumption.
  - split; [apply lookup_rule_updated|]. simpl. rewrite dict_get_set_same.
    split; [reflexivity|]. rewrite capture_keys_app. simpl. rewrite Hk. simpl.
    now apply nodup_keys_repeated.
Qed.

Lemma add_capture_appends_duplicate_witness :
  exists data' r',
    add_capture "Write" (cap_path "file_path") doc_with_write_capture = OK data'
    /\ lookup_rule "rules" "Write" data' = Some r'
    /\ rule_captures r' = Some (JArr ([cap_path "file_path"; cap_filename] ++ [cap_path "file_path"]))
    /\ captures_unique r' = false.
Proof.
  apply (add_capture_appends_duplicate "Write" (cap_path "file_path")
           doc_with_write_capture
           [("default", JStr "{file_path}");
            ("captures", JArr [cap_path "file_path"; cap_filename])]
           [cap_path "file_path"; cap_filename] "file_path");
    reflexivity.
Defined.

(** C3 fails as stated: the append of [update_narrator_rules_v2.py] on a
    [Write] rule that already captures [file_path] returns a document, and
    not the one it was given. *)
Lemma add_capture_duplicate_changes_document :
  exists data',
    add_capture "Write" (cap_path "file_path") doc_with_write_capture = OK data'
    /\ data' <> doc_with_write_capture.
Proof.
  eexists. split; [reflexivity | discriminate].
Qed.

(** C10: appending a capture to an existing rule that has no [captures] key
    raises nothing; the rule gets a [captures] list holding the new capture
    and nothing else, its other keys and the other rules stay as they were. *)
Theorem add_capture_initialises_captures
  (rule : string) (c : json) (data : json) (f : dict) :
  lookup_rule "rules" rule data = Some (JObj f) ->
  dict_get "captures" f = None ->
  exists data' f',
    add_capture rule c data = OK data'
    /\ lookup_rule "rules" rule data' = Some (JObj f')
    /\ dict_get "captures" f' = Some (JArr [c])
    /\ (forall k, k <> "captures" -> dict_get k f' = dict_get k f)
    /\ (forall other, other <> rule ->
          lookup_rule "rules" other data' = lookup_rule "rules" other data).
Proof.
  intros Hl Hc.
  apply lookup_rule_Some_inv in Hl as (m & rs & -> & Hm & Hrs).
  eexists. exists (dict_set "captures" (JArr [c]) f). split.
  - unfold add_capture. eapply with_rule_OK; try eassumption.
    apply append_capture_absent; eassumption.
  - split; [apply lookup_rule_updated|].
    split; [apply dict_get_set_same|].
    split.
    + intros k Hk. apply dict_get_set_other. congruence.
    + intros other Hne. now apply lookup_rule_not_updated.
Qed.

Lemma add_capture_initialises_captures_witness :
  exists data' f',
    add_capture "Write" (cap_path "file_path") doc_without_captures = OK data'
    /\ lookup_rule "rules" "Write" data' = Some (JObj f')
    /\ dict_get "captures" f' = Some (JArr [cap_path "file_path"])
    /\ (forall k, k <> "captures" ->
          dict_get k f' = dict_get k [("default", JStr "{file_path}")])
    /\ (forall other, other <> "Write" ->
          lookup_rule "rules" other data' = lookup_rule "rules" other doc_without_captures).
Proof.
  apply (add_capture_initialises_captures "Write" (cap_path "file_path")
           doc_without_captures [("default", JStr "{file_path}")]);
    reflexivity.
Defined.

(** ** Removing the MCP rules *)

Lemma filter_twice {A : Type} (f g : A -> bool) (l : list A) :
  filter f (filter g l) = filter (fun x => g x && f x) l.
Proof.
  induction l as [|x l IH]; simpl; [reflexivity|].
  destruct (g x); simpl; [destruct (f x)|]; now rewrite IH.
Qed.

Lemma filter_all {A : Type} (f : A -> bool) (l : list A) :
  (forall x, f x = true) -> filter f l = l.
Proof.
  intros H. induction l as [|x l IH]; simpl; [reflexivity|].
  now rewrite H, IH.
Qed.

Lemma dict_mem_keys (k : string) (d : dict) :
  dict_mem k d = true <-> In k (keys d).
Proof.
  unfold dict_mem, keys. induction d as [|[k' v'] d IH]; simpl.
  - split; [discriminate | contradiction].
  - destruct (String.eqb k k') eqn:E.
    + apply String.eqb_eq in E. subst. split; auto.
    + apply String.eqb_neq in E. rewrite IH. split; [auto|].
      intros [H|H]; [congruence | assumption].
Qed.

Lemma dict_get_filter_keys (q : string -> bool) (name : string) (d : dict) :
  dict_get name (filter (fun kv => q (fst kv)) d)
  = if q name then dict_get name d else None.
Proof.
  induction d as [|[k v] d IH]; simpl; [now destruct (q name)|].
  destruct (String.eqb name k) eqn:E.
  - apply String.eqb_eq in E. subst k.
    destruct (q name) eqn:Q; simpl; [now rewrite String.eqb_refl | exact IH].
  - destruct (q k); simpl; [rewrite E|]; exact IH.
Qed.

(** The deletion loop of [update_narrator_rules.py], lines 19-20, over names
    that are keys of [rules], each listed once. *)
Lemma foldM_delete_rule (ks : list string) :
  forall (m rs : dict),
    dict_get "rules" m = Some (JObj rs) ->
    NoDup ks ->
    (forall k, In k ks -> dict_mem k rs = true) ->
    foldM delete_rule ks (JObj m)
    = OK (JObj (dict_set "rules"
                  (JObj (filter (fun kv => negb (existsb (String.eqb (fst kv)) ks)) rs)) m)).
Proof.
  induction ks as [|k ks IH]; intros m rs Hm Hnd Hin; simpl.
  - rewrite filter_all, dict_set_same_value; auto.
  - unfold delete_rule at 1, with_item; simpl. rewrite Hm; simpl.
    rewrite (Hin k (or_introl eq_refl)); simpl.
    inversion Hnd as [|? ? Hk Hnd']; subst.
    rewrite (IH _ (dict_del k rs)); [| apply dict_get_set_same | assumption |].
    + rewrite dict_set_set. unfold dict_del. rewrite filter_twice.
      do 4 f_equal. apply filter_ext. intros [k' v']; simpl.
      now rewrite negb_orb, (String.eqb_sym k' k).
    + intros k' Hk'. unfold dict_mem. rewrite dict_get_del_other.
      * apply (Hin k'). now right.
      * intros ->. contradiction.
Qed.

(** What [update_narrator_rules.py] computes on a document whose [rules] is
    a dict: the rules whose name satisfies the test are filtered out of
    [rules], the rest of the document stays. *)
Lemma remove_rules_obj (p : string -> bool) (m rs : dict) :
  dict_get "rules" m = Some (JObj rs) ->
  nodup_keys (keys rs) = true ->
  remove_rules p (JObj m)
  = OK (JObj (dict_set "rules" (JObj (filter (fun kv => negb (p (fst kv))) rs)) m),
        filter p (keys rs)).
Proof.
  intros Hm Hnd. apply nodup_keys_NoDup in Hnd.
  unfold remove_rules; simpl. rewrite Hm; simpl.
  rewrite (foldM_delete_rule _ m rs Hm).
  - simpl. do 5 f_equal. apply filter_ext_in. intros [k v] Hin; simpl. f_equal.
    destruct (p k) eqn:Q.
    + apply existsb_eqb_In, filter_In. split; [|assumption].
      apply (in_map fst) in Hin. exact Hin.
    + destruct (existsb (String.eqb k) (filter p (keys rs))) eqn:E; [|reflexivity].
      apply existsb_eqb_In, filter_In in E as [_ E]. congruence.
  - now apply NoDup_filter.
  - intros k Hk. apply filter_In in Hk as [Hk _]. now apply dict_mem_keys.
Qed.

(** C2, as the code has it: on every document whose [rules] is a dict
    (with each name once, as in any Python dict) the removal succeeds;
    every rule whose name satisfies the test is gone from
    [rules], every other rule is there unchanged, and every other top-level
    section, [mcpRules] among them, is exactly as before: the removed rules
    are inserted nowhere. *)
Theorem remove_rules_deletes_without_insert (p : string -> bool) (m rs : dict) :
  dict_get "rules" m = Some (JObj rs) ->
  nodup_keys (keys rs) = true ->
  exists m' rs',
    remove_rules p (JObj m) = OK (JObj m', filter p (keys rs))
    /\ dict_get "rules" m' = Some (JObj rs')
    /\ (forall name, p name = true -> dict_get name rs' = None)
    /\ (forall name, p name = false -> dict_get name rs' = dict_get name rs)
    /\ (forall section, section <> "rules" -> dict_get section m' = dict_get section m).
Proof.
  intros Hm Hnd. eexists. eexists. split; [now apply remove_rules_obj|].
  split; [apply dict_get_set_same|]. split; [|split].
  - intros name Hp. rewrite (dict_get_filter_keys (fun k => negb (p k))).
    now rewrite Hp.
  - intros name Hp. rewrite (dict_get_filter_keys (fun k => negb (p k))).
    now rewrite Hp.
  - intros section Hne. apply dict_get_set_other. congruence.
Qed.

Lemma remove_rules_deletes_without_insert_witness :
  exists m' rs',
    remove_rules is_mcp scenario_d
    = OK (JObj m', filter is_mcp ["Read"; "mcp__serena__read_file"])
    /\ dict_get "rules" m' = Some (JObj rs')
    /\ (forall name, is_mcp name = true -> dict_get name rs' = None)
    /\ (forall name, is_mcp name = false ->
          dict_get name rs'
          = dict_get name
              [("Read", JObj [("default", JStr "{file_path}")]);
               ("mcp__serena__read_file", JObj [("default", JStr "{relative_path}")])])
    /\ (forall section, section <> "rules" ->
          dict_get section m'
          = dict_get section
              [("rules",
                JObj [("Read", JObj [("default", JStr "{file_path}")]);
                      ("mcp__serena__read_file",
                       JObj [("default", JStr "{relative_path}")])]);
               ("mcpRules", JObj [])]).
Proof.
  apply (remove_rules_deletes_without_insert is_mcp
           [("rules",
             JObj [("Read", JObj [("default", JStr "{file_path}")]);
                   ("mcp__serena__read_file",
                    JObj [("default", JStr "{relative_path}")])]);
            ("mcpRules", JObj [])]
           [("Read", JObj [("default", JStr "{file_path}")]);
            ("mcp__serena__read_file", JObj [("default", JStr "{relative_path}")])]);
    reflexivity.
Defined.

(** C2 fails as stated: in scenario D the rule [mcp__serena__read_file]
    disappears from [rules] and does not appear in [mcpRules]. *)
Lemma removed_rule_not_in_mcpRules :
  exists data',
    remove_rules is_mcp scenario_d = OK (data', ["mcp__serena__read_file"])
    /\ lookup_rule "rules" "mcp__serena__read_file" data' = None
    /\ lookup_rule "mcpRules" "mcp__serena__read_file" data' = None.
Proof.
  eexists. split; [reflexivity|]. split; reflexivity.
Qed.

(** ** What [update_narrator_rules.py] prints *)

Lemma length_append (a b : string) :
  String.length (a ++ b)%string = String.length a + String.length b.
Proof. induction a as [|c a IH]; simpl; congruence. Qed.

Lemma append_inv_head (a x y : string) : (a ++ x = a ++ y)%string -> x = y.
Proof.
  induction a as [|c a IH]; simpl; intros H; [assumption|].
  injection H as H. auto.
Qed.

Lemma append_inv_tail (t : string) :
  forall x y : string, (x ++ t = y ++ t)%string -> x = y.
Proof.
  induction x as [|c x IH]; intros [|d y] H; simpl in H.
  - reflexivity.
  - apply (f_equal String.length) in H. simpl in H. rewrite length_append in H. lia.
  - apply (f_equal String.length) in H. simpl in H. rewrite length_append in H. lia.
  - injection H as -> H. f_equal. now apply IH.
Qed.

Lemma string_of_nat_inj (n k : nat) : string_of_nat n = string_of_nat k -> n = k.
Proof.
  unfold string_of_nat. intros H. apply Unsigned.to_uint_inj.
  apply (f_equal NilEmpty.uint_of_string) in H.
  rewrite !NilEmpty.usu in H. congruence.
Qed.

Lemma removed_message_inj (n k : nat) : removed_message n = removed_message k -> n = k.
Proof.
  unfold removed_message. intros H.
  apply append_inv_head, append_inv_tail in H. now apply string_of_nat_inj.
Qed.

Lemma filter_none_length {A : Type} (f : A -> bool) (l : list A) :
  length (filter f l) = 0 <-> forall x, In x l -> f x = false.
Proof.
  induction l as [|x l IH]; simpl.
  - split; [contradiction | reflexivity].
  - destruct (f x) eqn:E; simpl.
    + split; [discriminate|]. intros H. rewrite (H x) in E by auto. discriminate.
    + rewrite IH. split.
      * intros H y [<-|Hy]; auto.
      * intros H y Hy. apply H. now right.
Qed.

(** C8, as the code has it: on every document whose [rules] is a dict
    (with each name once, as in any Python dict) the script removes the
    matching rules and, when the document that is left can be written,
    stores it and prints one line that carries the number of removed rules
    and nothing else; the number is 0 exactly when no rule name matches,
    and lines for different numbers differ, so a run that removed nothing is
    told apart from one that removed some.  When a string of the document
    that is left cannot be encoded, the dump raises [UnicodeEncodeError],
    the file is left with a text that is not JSON and nothing is printed. *)
Theorem update_narrator_rules_prints_count (m rs : dict) :
  dict_get "rules" m = Some (JObj rs) ->
  nodup_keys (keys rs) = true ->
  exists data',
    remove_rules is_mcp (JObj m) = OK (data', filter is_mcp (keys rs))
    /\ update_narrator_rules (Loads (JObj m))
       = (if dumpable data'
          then (Loads data', OK (removed_message (length (filter is_mcp (keys rs)))))
          else (Refuses NotJson, Raise UnicodeEncodeError))
    /\ (length (filter is_mcp (keys rs)) = 0 <->
        forall name, In name (keys rs) -> is_mcp name = false)
    /\ (forall k, removed_message k
                  = removed_message (length (filter is_mcp (keys rs))) ->
                  k = length (filter is_mcp (keys rs))).
Proof.
  intros Hm Hnd. eexists. split; [now apply remove_rules_obj|]. split; [|split].
  - unfold update_narrator_rules, run_script.
    rewrite (remove_rules_obj _ _ _ Hm Hnd). reflexivity.
  - apply filter_none_length.
  - intros k. apply removed_message_inj.
Qed.

Lemma update_narrator_rules_prints_count_witness :
  exists data',
    remove_rules is_mcp scenario_d
    = OK (data', filter is_mcp ["Read"; "mcp__serena__read_file"])
    /\ update_narrator_rules (Loads scenario_d)
       = (if dumpable data'
          then (Loads data',
                OK (removed_message
                      (length (filter is_mcp ["Read"; "mcp__serena__read_file"]))))
          else (Refuses NotJson, Raise UnicodeEncodeError))
    /\ (length (filter is_mcp ["Read"; "mcp__serena__read_file"]) = 0 <->
        forall name, In name ["Read"; "mcp__serena__read_file"] -> is_mcp name = false)
    /\ (forall k, removed_message k
                  = removed_message
                      (length (filter is_mcp ["Read"; "mcp__serena__read_file"])) ->
                  k = length (filter is_mcp ["Read"; "mcp__serena__read_file"])).
Proof.
  apply (update_narrator_rules_prints_count
           [("rules",
             JObj [("Read", JObj [("default", JStr "{file_path}")]);
                   ("mcp__serena__read_file",
                    JObj [("default", JStr "{relative_path}")])]);
            ("mcpRules", JObj [])]
           [("Read", JObj [("default", JStr "{file_path}")]);
            ("mcp__serena__read_file", JObj [("default", JStr "{relative_path}")])]);
    reflexivity.
Defined.

(** C8 fails as stated: the names of the removed rules are not part of
    what a run reports.  The two runs below remove different rules, and
    what they store and print is the same. *)
Lemma removed_names_not_reported :
  update_narrator_rules (Loads doc_ide_rule) = update_narrator_rules (Loads doc_serena_rule)
  /\ snd (update_narrator_rules (Loads doc_ide_rule))
     = OK "Removed 1 MCP tool entries from rules section"
  /\ remove_rules is_mcp doc_ide_rule
     = OK (JObj [("rules", JObj [])], ["mcp__ide__getDiagnostics"])
  /\ remove_rules is_mcp doc_serena_rule
     = OK (JObj [("rules", JObj [])], ["mcp__serena__read_file"]).
Proof. repeat split. Qed.

(** ** The one write at the end of a script *)

Lemma foldM_app {A S : Type} (f : A -> S -> result S) (xs ys : list A) (s : S) :
  foldM f (xs ++ ys) s = bind (foldM f xs s) (foldM f ys).
Proof.
  revert s; induction xs as [|x xs IH]; intros s; simpl; [reflexivity|].
  destruct (f x s) as [s'|e]; simpl; [apply IH | reflexivity].
Qed.

(** C5: when a statement of a batch raises, after the statements before it
    ran and changed the loaded document, the script ends with that
    exception and the stored document is the one from before the run. *)
Theorem failed_batch_leaves_storage
  (pre post : list op) (o : op) (out : string) (data dk : json) (e : pyerr) :
  run_ops pre data = OK dk ->
  apply_op o dk = Raise e ->
  run_batch (pre ++ o :: post) out (Loads data) = (Loads data, Raise e).
Proof.
  intros Hpre Ho. unfold run_batch, run_script, run_ops in *.
  rewrite foldM_app, Hpre. simpl. rewrite Ho. reflexivity.
Qed.

(** [update_narrator_rules_v2.py] on a document without an [Edit] rule:
    the section is dropped and [Read] and [Write] are rewritten in memory,
    then line 31 raises, and the file keeps its [extensionTemplates]. *)
Lemma failed_batch_leaves_storage_witness :
  update_narrator_rules_v2 (Loads doc_without_captures)
  = (Loads doc_without_captures, Raise (KeyError "Edit")).
Proof.
  exact (failed_batch_leaves_storage
           (firstn 5 update_narrator_rules_v2_ops)
           (skipn 6 update_narrator_rules_v2_ops)
           (SetDefault "Edit" "{filetype}「{filename}」を編集します")
           "Updated narrator-rules.json with parseFileType captures"
           doc_without_captures
           (JObj [("rules",
                   JObj [("Read",
                          JObj [("default", JStr "{filetype}「{filename}」を読み込みます");
                                ("captures", JArr [cap_path "file_path"])]);
                         ("Write",
                          JObj [("default", JStr "{filetype}「{filename}」を作成します");
                                ("captures", JArr [cap_path "file_path"])])])])
           (KeyError "Edit") eq_refl eq_refl).
Defined.

(** ** The uniqueness invariants along a run *)

Lemma with_item_OK_inv (o : json) (k : string) (g : json -> result json) (o' : json) :
  with_item o k g = OK o' ->
  exists d v v', o = JObj d /\ dict_get k d = Some v /\ g v = OK v'
                 /\ o' = JObj (dict_set k v' d).
Proof.
  unfold with_item. intros H.
  apply bind_OK_inv in H as (v & Hv & H). apply bind_OK_inv in H as (v' & Hg & H).
  destruct o as [| | | | | d]; try discriminate. simpl in Hv, H.
  destruct (dict_get k d) as [v0|] eqn:E; [|discriminate].
  injection Hv as ->. injection H as <-. exists d, v, v'. auto.
Qed.

Lemma with_rule_OK_inv (name : string) (g : json -> result json) (data data' : json) :
  with_item data "rules" (fun rs => with_item rs name g) = OK data' ->
  exists m rs r r',
    data = JObj m /\ dict_get "rules" m = Some (JObj rs) /\ dict_get name rs = Some r
    /\ g r = OK r' /\ data' = JObj (dict_set "rules" (JObj (dict_set name r' rs)) m).
Proof.
  intros H. apply with_item_OK_inv in H as (m & v & v' & -> & Hm & H & ->).
  apply with_item_OK_inv in H as (rs & r & r' & -> & Hrs & Hg & ->).
  exists m, rs, r, r'. auto.
Qed.

Lemma dict_get_In (k : string) (v : json) (d : dict) :
  dict_get k d = Some v -> In (k, v) d.
Proof.
  induction d as [|[k' v'] d IH]; simpl; [discriminate|].
  destruct (String.eqb k k') eqn:E.
  - apply String.eqb_eq in E. intros H. injection H as ->. subst. now left.
  - intros H. right. now apply IH.
Qed.

Lemma forallb_dict_set (P : json -> bool) (k : string) (v : json) (d : dict) :
  forallb (fun kv => P (snd kv)) d = true ->
  P v = true ->
  forallb (fun kv => P (snd kv)) (dict_set k v d) = true.
Proof.
  intros Hd Hv. induction d as [|[k' v'] d IH]; simpl in *.
  - now rewrite Hv.
  - apply andb_prop in Hd as [H1 H2].
    destruct (String.eqb k k'); simpl; [now rewrite Hv | now rewrite H1, IH].
Qed.

Lemma forallb_filter_incl {A : Type} (P f : A -> bool) (l : list A) :
  forallb P l = true -> forallb P (filter f l) = true.
Proof.
  rewrite !forallb_forall. intros H x Hx. apply filter_In in Hx as [Hx _]. auto.
Qed.

Lemma append_capture_OK_inv (c r r' : json) :
  append_capture c r = OK r' ->
  exists f,
    r = JObj f
    /\ ((dict_get "captures" f = None /\ r' = JObj (dict_set "captures" (JArr [c]) f))
        \/ (exists cs, dict_get "captures" f = Some (JArr cs)
                       /\ r' = JObj (dict_set "captures" (JArr (cs ++ [c])) f))).
Proof.
  intros H. destruct r as [| | | s | xs | f]; try discriminate.
  - unfold append_capture in H. simpl in H.
    destruct (str_contains "captures" s); discriminate.
  - unfold append_capture in H. simpl in H.
    destruct (existsb (is_str "captures") xs); discriminate.
  - exists f. split; [reflexivity|].
    destruct (dict_get "captures" f) as [v|] eqn:E.
    + right. unfold append_capture in H. simpl in H. unfold dict_mem in H.
      rewrite E in H. simpl in H. unfold with_item in H. simpl in H.
      rewrite E in H. simpl in H.
      destruct v as [| | | | cs |]; try discriminate.
      injection H as <-. eauto.
    + left. rewrite (append_capture_absent c f E) in H. injection H as <-. auto.
Qed.



Lemma foldM_preserves {A S : Type} (P : S -> Prop) (f : A -> S -> result S) (xs : list A) :
  (forall x s s', P s -> f x s = OK s' -> P s') ->
  forall s s', P s -> foldM f xs s = OK s' -> P s'.
Proof.
  intros Hf. induction xs as [|x xs IH]; intros s s' Hs H; simpl in H.
  - now injection H as <-.
  - apply bind_OK_inv in H as (s1 & H1 & H). eauto.
Qed.

(** ** The scripts as tables *)

Lemma fix_filename_captures_ops_table :
  fix_filename_captures_ops = assign_captures fix_filename_table.
Proof. reflexivity. Qed.

Lemma update_narrator_rules_v2_ops_table :
  update_narrator_rules_v2_ops
  = DropSection "extensionTemplates"
    :: SetDefault "Read" "{filetype}「{filename}」を読み込みます"
    :: SetCaptures "Read" [cap_path "file_path"]
    :: default_and_append v2_append_table.
Proof. reflexivity. Qed.

(** ** Statements on one rule *)

Lemma with_item_ext (o : json) (k : string) (g g' : json -> result json) :
  (forall v, g v = g' v) -> with_item o k g = with_item o k g'.
Proof.
  intros H. unfold with_item. destruct (py_getitem o k) as [v|e]; simpl; [|reflexivity].
  now rewrite H.
Qed.

(** Two updates of the same item, one after the other, are one update. *)
Lemma with_item_twice (o : json) (k : string) (g1 g2 : json -> result json) :
  bind (with_item o k g1) (fun o' => with_item o' k g2)
  = with_item o k (fun v => bind (g1 v) g2).
Proof.
  unfold with_item. destruct o as [| | | | | d]; try reflexivity. simpl.
  destruct (dict_get k d) as [v|]; [|reflexivity]. simpl.
  destruct (g1 v) as [v1|e]; [|reflexivity]. simpl.
  rewrite dict_get_set_same. simpl.
  destruct (g2 v1) as [v2|e]; [|reflexivity]. simpl.
  now rewrite dict_set_set.
Qed.

Lemma with_rule_twice (name : string) (g1 g2 : json -> result json) (data : json) :
  bind (with_item data "rules" (fun rs => with_item rs name g1))
       (fun d => with_item d "rules" (fun rs => with_item rs name g2))
  = with_item data "rules" (fun rs => with_item rs name (fun r => bind (g1 r) g2)).
Proof.
  rewrite with_item_twice. apply with_item_ext. intros rs. apply with_item_twice.
Qed.

Lemma py_setitem_twice (k : string) (a b r : json) :
  bind (py_setitem r k a) (fun r' => py_setitem r' k b) = py_setitem r k b.
Proof.
  destruct r as [| | | | | f]; try reflexivity. simpl. now rewrite dict_set_set.
Qed.

Lemma with_rule_Raise (name : string) (g : json -> result json) (m rs : dict)
  (r : json) (e : pyerr) :
  dict_get "rules" m = Some (JObj rs) ->
  dict_get name rs = Some r ->
  g r = Raise e ->
  with_item (JObj m) "rules" (fun rs => with_item rs name g) = Raise e.
Proof.
  intros Hm Hrs Hg. unfold with_item; simpl.
  rewrite Hm; simpl. rewrite Hrs; simpl. rewrite Hg. reflexivity.
Qed.

(** X2: of two assignments to the captures of one rule, and of two
    assignments to its default, the later one decides: the pair behaves, on
    every loaded value and with the same exception when there is one, as the
    second assignment alone.  In particular an assignment repeated is the
    assignment once. *)
Theorem later_assignment_wins
  (rule : string) (cs1 cs2 : list json) (t1 t2 : string) (data : json) :
  bind (set_captures rule cs1 data) (set_captures rule cs2) = set_captures rule cs2 data
  /\ bind (set_default rule t1 data) (set_default rule t2) = set_default rule t2 data.
Proof.
  split.
  - unfold set_captures. rewrite with_rule_twice.
    apply with_item_ext. intros rs. apply with_item_ext. intros r.
    apply py_setitem_twice.
  - unfold set_default. rewrite with_rule_twice.
    apply with_item_ext. intros rs. apply with_item_ext. intros r.
    apply py_setitem_twice.
Qed.

(** The value of a top-level key is the same after an update of [rules]. *)
Lemma py_getitem_set_rules (m : dict) (v : json) (section : string) :
  section <> "rules" ->
  py_getitem (JObj (dict_set "rules" v m)) section = py_getitem (JObj m) section.
Proof.
  intros H. simpl. rewrite dict_get_set_other; [reflexivity | congruence].
Qed.

(** X1: assigning a default to an existing rule succeeds; the rule then has
    the new template under [default] and every other key, [captures]
    included, as before; the other rules and the other top-level sections
    are as before. *)
Theorem set_default_changes_default_only
  (rule template : string) (data : json) (f : dict) :
  lookup_rule "rules" rule data = Some (JObj f) ->
  exists data' f',
    set_default rule template data = OK data'
    /\ lookup_rule "rules" rule data' = Some (JObj f')
    /\ dict_get "default" f' = Some (JStr template)
    /\ (forall k, k <> "default" -> dict_get k f' = dict_get k f)
    /\ (forall other, other <> rule ->
          lookup_rule "rules" other data' = lookup_rule "rules" other data)
    /\ (forall section, section <> "rules" ->
          py_getitem data' section = py_getitem data section).
Proof.
  intros Hl. apply lookup_rule_Some_inv in Hl as (m & rs & -> & Hm & Hrs).
  eexists. exists (dict_set "default" (JStr template) f). split.
  - unfold set_default. eapply with_rule_OK; try eassumption. reflexivity.
  - split; [apply lookup_rule_updated|].
    split; [apply dict_get_set_same|]. split; [|split].
    + intros k Hk. apply dict_get_set_other. congruence.
    + intros other Hne. now apply lookup_rule_not_updated.
    + intros section Hne. now apply py_getitem_set_rules.
Qed.

Lemma set_default_changes_default_only_witness :
  exists data' f',
    set_default "Write" "{filetype}" doc_with_write_capture = OK data'
    /\ lookup_rule "rules" "Write" data' = Some (JObj f')
    /\ dict_get "default" f' = Some (JStr "{filetype}")
    /\ (forall k, k <> "default" ->
          dict_get k f'
          = dict_get k [("default", JStr "{file_path}");
                        ("captures", JArr [cap_path "file_path"; cap_filename])])
    /\ (forall other, other <> "Write" ->
          lookup_rule "rules" other data'
          = lookup_rule "rules" other doc_with_write_capture)
    /\ (forall section, section <> "rules" ->
          py_getitem data' section = py_getitem doc_with_write_capture section).
Proof.
  apply (set_default_changes_default_only "Write" "{filetype}" doc_with_write_capture
           [("default", JStr "{file_path}");
            ("captures", JArr [cap_path "file_path"; cap_filename])]).
  reflexivity.
Defined.

(** X4: a statement on a rule that [rules] does not have raises
    [KeyError] with the rule's name, whether it assigns a default, assigns
    captures or appends a capture: no statement creates a rule. *)
Theorem missing_rule_raises_KeyError
  (rule template : string) (cs : list json) (c : json) (m rs : dict) :
  dict_get "rules" m = Some (JObj rs) ->
  dict_get rule rs = None ->
  set_default rule template (JObj m) = Raise (KeyError rule)
  /\ set_captures rule cs (JObj m) = Raise (KeyError rule)
  /\ add_capture rule c (JObj m) = Raise (KeyError rule).
Proof.
  intros Hm Hr. unfold set_default, set_captures, add_capture, with_item. simpl.
  rewrite Hm. simpl. rewrite Hr. simpl. auto.
Qed.

Lemma missing_rule_raises_KeyError_witness :
  set_default "Edit" "{filetype}" doc_with_write_capture = Raise (KeyError "Edit")
  /\ set_captures "Edit" [cap_filename] doc_with_write_capture = Raise (KeyError "Edit")
  /\ add_capture "Edit" cap_filename doc_with_write_capture = Raise (KeyError "Edit").
Proof.
  apply (missing_rule_raises_KeyError "Edit" "{filetype}" [cap_filename] cap_filename
           [("rules",
             JObj [("Read", JObj [("default", JStr "{file_path}")]);
                   ("Write",
                    JObj [("default", JStr "{file_path}");
                          ("captures", JArr [cap_path "file_path"; cap_filename])])]);
            ("mcpRules", JObj [])]
           [("Read", JObj [("default", JStr "{file_path}")]);
            ("Write",
             JObj [("default", JStr "{file_path}");
                   ("captures", JArr [cap_path "file_path"; cap_filename])])]);
    reflexivity.
Defined.

(** X12: appending a capture to a rule that has a [captures] key: when the
    value is a list the capture goes to its end, the captures before it,
    the rule's other keys and the other rules stay; when the value is
    anything else the append raises [AttributeError]. *)
Theorem add_capture_appends_last_or_raises
  (rule : string) (c : json) (data : json) (f : dict) (v : json) :
  lookup_rule "rules" rule data = Some (JObj f) ->
  dict_get "captures" f = Some v ->
  (forall cs, v = JArr cs ->
     exists data' f',
       add_capture rule c data = OK data'
       /\ lookup_rule "rules" rule data' = Some (JObj f')
       /\ dict_get "captures" f' = Some (JArr (cs ++ [c]))
       /\ (forall k, k <> "captures" -> dict_get k f' = dict_get k f)
       /\ (forall other, other <> rule ->
             lookup_rule "rules" other data' = lookup_rule "rules" other data))
  /\ ((forall cs, v <> JArr cs) -> add_capture rule c data = Raise AttributeError).
Proof.
  intros Hl Hc. apply lookup_rule_Some_inv in Hl as (m & rs & -> & Hm & Hrs). split.
  - intros cs ->. eexists. exists (dict_set "captures" (JArr (cs ++ [c])) f). split.
    + unfold add_capture. eapply with_rule_OK; try eassumption.
      apply append_capture_present; eassumption.
    + split; [apply lookup_rule_updated|].
      split; [apply dict_get_set_same|]. split.
      * intros k Hk. apply dict_get_set_other. congruence.
      * intros other Hne. now apply lookup_rule_not_updated.
  - intros Hv. unfold add_capture. eapply with_rule_Raise; try eassumption.
    unfold append_capture. simpl. unfold dict_mem. rewrite Hc. simpl.
    unfold with_item. simpl. rewrite Hc. simpl.
    destruct v as [| | | | cs |]; try reflexivity. now destruct (Hv cs).
Qed.

Lemma add_capture_appends_last_or_raises_witness :
  (forall cs, JArr [cap_path "file_path"; cap_filename] = JArr cs ->
     exists data' f',
       add_capture "Write" (cap_path "notebook_path") doc_with_write_capture = OK data'
       /\ lookup_rule "rules" "Write" data' = Some (JObj f')
       /\ dict_get "captures" f' = Some (JArr (cs ++ [cap_path "notebook_path"]))
       /\ (forall k, k <> "captures" ->
             dict_get k f'
             = dict_get k [("default", JStr "{file_path}");
                           ("captures", JArr [cap_path "file_path"; cap_filename])])
       /\ (forall other, other <> "Write" ->
             lookup_rule "rules" other data'
             = lookup_rule "rules" other doc_with_write_capture))
  /\ ((forall cs, JArr [cap_path "file_path"; cap_filename] <> JArr cs) ->
      add_capture "Write" (cap_path "notebook_path") doc_with_write_capture
      = Raise AttributeError).
Proof.
  apply (add_capture_appends_last_or_raises "Write" (cap_path "notebook_path")
           doc_with_write_capture
           [("default", JStr "{file_path}");
            ("captures", JArr [cap_path "file_path"; cap_filename])]
           (JArr [cap_path "file_path"; cap_filename]));
    reflexivity.
Defined.

Lemma foldM_cons {A S : Type} (f : A -> S -> result S) (x : A) (xs : list A) (s : S) :
  foldM f (x :: xs) s = bind (f x s) (foldM f xs).
Proof. reflexivity. Qed.

Lemma with_item_no_key (d : dict) (k : string) (g : json -> result json) :
  dict_get k d = None -> with_item (JObj d) k g = Raise (KeyError k).
Proof. intros H. unfold with_item, py_getitem. now rewrite H. Qed.

(** X3: on a document without a [rules] key each of the four scripts ends
    with [KeyError] for [rules] and leaves the file as it was. *)
Theorem scripts_need_rules_section (m : dict) :
  dict_get "rules" m = None ->
  update_captures (Loads (JObj m)) = (Loads (JObj m), Raise (KeyError "rules"))
  /\ update_narrator_rules (Loads (JObj m)) = (Loads (JObj m), Raise (KeyError "rules"))
  /\ update_narrator_rules_v2 (Loads (JObj m)) = (Loads (JObj m), Raise (KeyError "rules"))
  /\ fix_filename_captures (Loads (JObj m)) = (Loads (JObj m), Raise (KeyError "rules")).
Proof.
  intros Hm. repeat split.
  - unfold update_captures, run_batch, run_script, run_ops, update_captures_ops.
    unfold foldM, apply_op, strip_capture_fields, py_getitem. now rewrite Hm.
  - unfold update_narrator_rules, run_script, remove_rules, py_getitem.
    now rewrite Hm.
  - unfold update_narrator_rules_v2, run_batch, run_script.
    rewrite update_narrator_rules_v2_ops_table. unfold run_ops.
    rewrite foldM_cons. cbn [apply_op]. rewrite drop_section_obj. cbn [bind].
    rewrite foldM_cons. cbn [apply_op]. unfold set_default.
    rewrite with_item_no_key; [reflexivity|].
    rewrite dict_get_del_other by discriminate. exact Hm.
  - unfold fix_filename_captures, run_batch, run_script.
    rewrite fix_filename_captures_ops_table. unfold run_ops.
    unfold assign_captures, fix_filename_table. cbn [map fst snd].
    rewrite foldM_cons. cbn [apply_op]. unfold set_captures.
    now rewrite with_item_no_key.
Qed.

Lemma scripts_need_rules_section_witness :
  update_captures (Loads (JObj [("mcpRules", JObj [])]))
  = (Loads (JObj [("mcpRules", JObj [])]), Raise (KeyError "rules"))
  /\ update_narrator_rules (Loads (JObj [("mcpRules", JObj [])]))
     = (Loads (JObj [("mcpRules", JObj [])]), Raise (KeyError "rules"))
  /\ update_narrator_rules_v2 (Loads (JObj [("mcpRules", JObj [])]))
     = (Loads (JObj [("mcpRules", JObj [])]), Raise (KeyError "rules"))
  /\ fix_filename_captures (Loads (JObj [("mcpRules", JObj [])]))
     = (Loads (JObj [("mcpRules", JObj [])]), Raise (KeyError "rules")).
Proof.
  apply (scripts_need_rules_section [("mcpRules", JObj [])]). reflexivity.
Defined.

(** ** What a statement can change *)

Lemma delete_rule_OK_inv (key : string) (data data' : json) :
  delete_rule key data = OK data' ->
  exists m rs,
    data = JObj m /\ dict_get "rules" m = Some (JObj rs) /\ dict_mem key rs = true
    /\ data' = JObj (dict_set "rules" (JObj (dict_del key rs)) m).
Proof.
  unfold delete_rule. intros H.
  apply with_item_OK_inv in H as (m & v & v' & -> & Hm & H & ->).
  destruct v as [| | | | | rs]; try discriminate. simpl in H.
  destruct (dict_mem key rs) eqn:E; [|discriminate]. injection H as <-.
  exists m, rs. auto.
Qed.

(** The deletion loop, read off a run that ended without an exception. *)
Lemma foldM_delete_rule_inv (ks : list string) :
  forall (m rs : dict) (data' : json),
    dict_get "rules" m = Some (JObj rs) ->
    foldM delete_rule ks (JObj m) = OK data' ->
    data' = JObj (dict_set "rules"
                    (JObj (filter (fun kv => negb (existsb (String.eqb (fst kv)) ks)) rs)) m).
Proof.
  induction ks as [|k ks IH]; intros m rs data' Hm H; simpl in H.
  - injection H as <-. rewrite filter_all, dict_set_same_value; auto.
  - apply bind_OK_inv in H as (d1 & H1 & H).
    apply delete_rule_OK_inv in H1 as (m0 & rs0 & Hd & Hm0 & _ & ->).
    injection Hd as <-. rewrite Hm in Hm0. injection Hm0 as <-.
    apply (IH _ (dict_del k rs)) in H; [|apply dict_get_set_same]. subst data'.
    rewrite dict_set_set. unfold dict_del. rewrite filter_twice.
    do 3 f_equal. apply filter_ext. intros [k' v']; simpl.
    now rewrite negb_orb, (String.eqb_sym k' k).
Qed.

Lemma filter_not_removed (p : string -> bool) (rs : dict) :
  filter (fun kv => negb (existsb (String.eqb (fst kv)) (filter p (keys rs)))) rs
  = filter (fun kv => negb (p (fst kv))) rs.
Proof.
  apply filter_ext_in. intros [k v] Hin; simpl. f_equal.
  destruct (p k) eqn:Q.
  - apply existsb_eqb_In, filter_In. split; [|assumption].
    apply (in_map fst) in Hin. exact Hin.
  - destruct (existsb (String.eqb k) (filter p (keys rs))) eqn:E; [|reflexivity].
    apply existsb_eqb_In, filter_In in E as [_ E]. congruence.
Qed.

(** What a successful removal did, whatever the document. *)
Lemma remove_rules_OK_inv (p : string -> bool) (data data' : json) (removed : list string) :
  remove_rules p data = OK (data', removed) ->
  exists m rs,
    data = JObj m /\ dict_get "rules" m = Some (JObj rs)
    /\ removed = filter p (keys rs)
    /\ data' = JObj (dict_set "rules" (JObj (filter (fun kv => negb (p (fst kv))) rs)) m).
Proof.
  unfold remove_rules. intros H.
  apply bind_OK_inv in H as (v & Hv & H). apply bind_OK_inv in H as (ks & Hks & H).
  apply bind_OK_inv in H as (d & Hd & H). injection H as <- <-.
  destruct data as [| | | | | m]; try discriminate. simpl in Hv.
  destruct (dict_get "rules" m) as [v0|] eqn:Hm; [|discriminate]. injection Hv as ->.
  destruct v as [| | | | | rs]; try discriminate. injection Hks as <-.
  exists m, rs. split; [reflexivity|]. split; [assumption|]. split; [reflexivity|].
  rewrite (foldM_delete_rule_inv _ m rs d Hm Hd). now rewrite filter_not_removed.
Qed.

Lemma keys_filter (q : string -> bool) (d : dict) :
  keys (filter (fun kv => q (fst kv)) d) = filter q (keys d).
Proof.
  unfold keys. induction d as [|[k v] d IH]; simpl; [reflexivity|].
  destruct (q k); simpl; now rewrite IH.
Qed.

Lemma strip_entries_keys (rs rs' : dict) :
  Forall2 (fun kv kv' => strip_entry kv = OK kv') rs rs' -> keys rs' = keys rs.
Proof.
  induction 1 as [|[k v] [k' v'] rs rs' Hkv _ IH]; simpl; [reflexivity|].
  unfold strip_entry in Hkv. simpl in Hkv.
  apply bind_OK_inv in Hkv as (v0 & _ & Hkv). injection Hkv as <- _.
  now rewrite IH.
Qed.

(** Every statement but a section drop rewrites the [rules] dict and
    nothing else: no name is added to it, and a rule the statement is not
    about is still there unchanged. *)
Lemma apply_op_rules_inv (o : op) (data data' : json) :
  apply_op o data = OK data' ->
  (exists s, o = DropSection s)
  \/ exists m rs rs',
       data = JObj m /\ dict_get "rules" m = Some (JObj rs)
       /\ data' = JObj (dict_set "rules" (JObj rs') m)
       /\ (forall k, In k (keys rs') -> In k (keys rs))
       /\ (forall name, op_leaves_rule name o = true -> dict_get name rs' = dict_get name rs).
Proof.
  intros H.
  assert (Hrule : forall r g,
            with_item data "rules" (fun rs => with_item rs r g) = OK data' ->
            exists m rs rs',
              data = JObj m /\ dict_get "rules" m = Some (JObj rs)
              /\ data' = JObj (dict_set "rules" (JObj rs') m)
              /\ (forall k, In k (keys rs') -> In k (keys rs))
              /\ (forall name, negb (String.eqb r name) = true ->
                               dict_get name rs' = dict_get name rs)).
  { intros r g Hg.
    apply with_rule_OK_inv in Hg as (m & rs & r0 & r' & -> & Hm & Hrs & _ & ->).
    exists m, rs, (dict_set r r' rs). repeat split; try assumption.
    - intros k. rewrite keys_dict_set_present; [auto|]. apply dict_mem_get. eauto.
    - intros name Hn. apply negb_true_iff, String.eqb_neq in Hn.
      now apply dict_get_set_other. }
  destruct o as [s | r t | r cs | r c | | p]; simpl in H.
  - left. eauto.
  - right. exact (Hrule _ _ H).
  - right. exact (Hrule _ _ H).
  - right. exact (Hrule _ _ H).
  - right. apply strip_capture_fields_OK_inv in H as (m & rs & rs' & -> & Hm & Hrs & ->).
    apply mapM_Forall2 in Hrs. exists m, rs, rs'. repeat split; try assumption.
    + intros k. now rewrite (strip_entries_keys _ _ Hrs).
    + discriminate.
  - right. apply bind_OK_inv in H as ([d removed] & Hr & H). injection H as <-.
    apply remove_rules_OK_inv in Hr as (m & rs & -> & Hm & _ & ->).
    exists m, rs, (filter (fun kv => negb (p (fst kv))) rs). repeat split; try assumption.
    + intros k. rewrite (keys_filter (fun k => negb (p k))).
      intros Hk. now apply filter_In in Hk as [Hk _].
    + intros name Hn. simpl in Hn.
      rewrite (dict_get_filter_keys (fun k => negb (p k))). now rewrite Hn.
Qed.

Lemma drop_section_OK_inv (s : string) (data data' : json) :
  drop_section s data = OK data' ->
  (exists m, data = JObj m /\ data' = JObj (dict_del s m))
  \/ ((forall m, data <> JObj m) /\ data' = data).
Proof.
  intros H. destruct data as [| | | | | m].
  6: { left. rewrite drop_section_obj in H. injection H as <-. eauto. }
  all: right; split; [discriminate|];
    unfold drop_section in H; apply bind_OK_inv in H as ([|] & Hc & H);
    try discriminate; now injection H as <-.
Qed.

Lemma apply_op_rule_names (o : op) (data data' : json) :
  apply_op o data = OK data' ->
  forall k, In k (rule_names data') -> In k (rule_names data).
Proof.
  intros H. destruct (apply_op_rules_inv _ _ _ H)
    as [(s & ->) | (m & rs & rs' & -> & Hm & -> & Hincl & _)].
  - simpl in H. apply drop_section_OK_inv in H as [(m & -> & ->) | (_ & ->)]; [|auto].
    unfold rule_names. destruct (String.eqb s "rules") eqn:E.
    + apply String.eqb_eq in E. subst. rewrite dict_get_del_same. contradiction.
    + apply String.eqb_neq in E. rewrite dict_get_del_other; auto.
  - unfold rule_names. now rewrite dict_get_set_same, Hm.
Qed.

Lemma run_ops_rule_names (ops : list op) (data data' : json) :
  run_ops ops data = OK data' ->
  forall name, In name (rule_names data') -> In name (rule_names data).
Proof.
  revert data. induction ops as [|o ops IH]; intros data H name Hn; simpl in H.
  - now injection H as <-.
  - apply bind_OK_inv in H as (d1 & H1 & H).
    eapply apply_op_rule_names; [eassumption|]. eapply IH; eassumption.
Qed.

(** X5: no run of statements adds a rule: every name under [rules] after a
    run that ended without an exception was a name under [rules] before. *)
Theorem run_ops_adds_no_rule (ops : list op) (data data' : json) :
  run_ops ops data = OK data' ->
  forall name, In name (rule_names data') -> In name (rule_names data).
Proof.
  intros H. now apply (run_ops_rule_names ops).
Qed.

Lemma run_ops_adds_no_rule_witness :
  In "Write" (rule_names doc_without_captures).
Proof.
  apply (run_ops_adds_no_rule
           [DropSection "extensionTemplates"; AddCapture "Write" (cap_path "file_path")]
           doc_without_captures
           (JObj [("rules",
                   JObj [("Read", JObj [("default", JStr "{file_path}")]);
                         ("Write",
                          JObj [("default", JStr "{file_path}");
                                ("captures", JArr [cap_path "file_path"])])])])).
  - reflexivity.
  - simpl. auto.
Defined.

Lemma apply_op_leaves_rule (name : string) (o : op) (data data' : json) :
  op_leaves_rule name o = true ->
  apply_op o data = OK data' ->
  lookup_rule "rules" name data' = lookup_rule "rules" name data.
Proof.
  intros Hl H. destruct (apply_op_rules_inv _ _ _ H)
    as [(s & ->) | (m & rs & rs' & -> & Hm & -> & _ & Hsame)].
  - simpl in *. apply negb_true_iff, String.eqb_neq in Hl.
    apply drop_section_OK_inv in H as [(m & -> & ->) | (_ & ->)]; [|reflexivity].
    simpl. now rewrite dict_get_del_other.
  - simpl. rewrite dict_get_set_same, Hm. auto.
Qed.

Lemma run_ops_leaves_rule (name : string) (ops : list op) (data data' : json) :
  forallb (op_leaves_rule name) ops = true ->
  run_ops ops data = OK data' ->
  lookup_rule "rules" name data' = lookup_rule "rules" name data.
Proof.
  revert data. induction ops as [|o ops IH]; intros data Hall H; simpl in *.
  - now injection H as <-.
  - apply andb_prop in Hall as [Ho Hall].
    apply bind_OK_inv in H as (d1 & H1 & H).
    rewrite (IH _ Hall H). eapply apply_op_leaves_rule; eassumption.
Qed.

(** X11: statements about other rules do not reach a rule: after a run of
    assignments and appends to rules of other names, of removals whose test
    the name fails, and of drops of sections other than [rules], the rule
    is what it was. *)
Theorem other_rules_statements_leave_rule
  (name : string) (ops : list op) (data data' : json) :
  forallb (op_leaves_rule name) ops = true ->
  run_ops ops data = OK data' ->
  lookup_rule "rules" name data' = lookup_rule "rules" name data.
Proof.
  intros Hall H. now apply (run_ops_leaves_rule name ops).
Qed.

Lemma other_rules_statements_leave_rule_witness :
  lookup_rule "rules" "Read"
    (JObj [("rules",
            JObj [("Read", JObj [("default", JStr "{file_path}")]);
                  ("Write",
                   JObj [("default", JStr "{filetype}");
                         ("captures", JArr [cap_path "file_path"])])])])
  = lookup_rule "rules" "Read" doc_without_captures.
Proof.
  apply (other_rules_statements_leave_rule "Read"
           [DropSection "extensionTemplates"; SetDefault "Write" "{filetype}";
            AddCapture "Write" (cap_path "file_path"); RemoveRules is_mcp]
           doc_without_captures);
    reflexivity.
Defined.

Lemma apply_op_sections (o : op) (m : dict) (data' : json) :
  apply_op o (JObj m) = OK data' ->
  exists m',
    data' = JObj m'
    /\ forall s, s <> "rules" ->
         dict_get s m' = if existsb (String.eqb s) (dropped_sections [o]) then None
                         else dict_get s m.
Proof.
  intros H.
  assert (Hdrop : forall s0, drop_section s0 (JObj m) = OK data' ->
            exists m', data' = JObj m'
              /\ forall s, s <> "rules" ->
                   dict_get s m' = if existsb (String.eqb s) [s0] then None
                                   else dict_get s m).
  { intros s0 H0. rewrite drop_section_obj in H0. injection H0 as <-.
    exists (dict_del s0 m). split; [reflexivity|]. intros s _. simpl.
    rewrite orb_false_r. destruct (String.eqb s s0) eqn:E.
    - apply String.eqb_eq in E. subst. apply dict_get_del_same.
    - apply String.eqb_neq in E. apply dict_get_del_other. congruence. }
  destruct o as [s0 | r t | r cs | r c | | p]; [exact (Hdrop s0 H) | | | | |];
    destruct (apply_op_rules_inv _ _ _ H)
      as [(s1 & Ho) | (m0 & rs & rs' & Hd & Hm & -> & _)]; try discriminate Ho;
    injection Hd as <-; (eexists; split; [reflexivity|]); intros s Hs; simpl;
    apply dict_get_set_other; congruence.
Qed.

Lemma dropped_sections_cons (s : string) (o : op) (ops : list op) :
  existsb (String.eqb s) (dropped_sections (o :: ops))
  = existsb (String.eqb s) (dropped_sections [o])
    || existsb (String.eqb s) (dropped_sections ops).
Proof.
  destruct o; simpl; rewrite ?orb_false_r; reflexivity.
Qed.

Lemma run_ops_sections_inv (ops : list op) :
  forall (m : dict) (data' : json),
    run_ops ops (JObj m) = OK data' ->
    exists m',
      data' = JObj m'
      /\ forall s, s <> "rules" ->
           dict_get s m' = if existsb (String.eqb s) (dropped_sections ops) then None
                           else dict_get s m.
Proof.
  induction ops as [|o ops IH]; intros m data' H.
  - injection H as <-. exists m. auto.
  - simpl in H. apply bind_OK_inv in H as (d1 & H1 & H).
    apply apply_op_sections in H1 as (m1 & -> & Hm1).
    apply IH in H as (m' & -> & Hm'). exists m'. split; [reflexivity|].
    intros s Hs. rewrite dropped_sections_cons, (Hm' s Hs), (Hm1 s Hs).
    destruct (existsb (String.eqb s) (dropped_sections ops));
      [now rewrite orb_true_r | now rewrite orb_false_r].
Qed.

(** X6: outside [rules] a run changes nothing but the sections it drops:
    after a run on a document (a dict) that ended without an exception,
    every top-level key other than [rules] is absent when the run has a
    drop of it and has its old value, or is absent as before, otherwise.
    So no statement writes to [mcpRules]. *)
Theorem run_ops_changes_rules_and_drops_only (ops : list op) (m : dict) (data' : json) :
  run_ops ops (JObj m) = OK data' ->
  exists m',
    data' = JObj m'
    /\ forall s, s <> "rules" ->
         dict_get s m' = if existsb (String.eqb s) (dropped_sections ops) then None
                         else dict_get s m.
Proof.
  apply run_ops_sections_inv.
Qed.

Lemma run_ops_changes_rules_and_drops_only_witness :
  exists data',
    run_ops update_narrator_rules_v2_ops doc_all_tools = OK data'
    /\ exists m',
         data' = JObj m'
         /\ forall s, s <> "rules" ->
              dict_get s m'
              = if existsb (String.eqb s) (dropped_sections update_narrator_rules_v2_ops)
                then None
                else dict_get s
                       [("extensionTemplates", JObj [(".py", JStr "Python")]);
                        ("rules",
                         JObj [("Read", JObj [("default", JStr "{file_path}")]);
                               ("Write", JObj [("default", JStr "{file_path}")]);
                               ("Edit", JObj [("default", JStr "{file_path}")]);
                               ("NotebookRead", JObj [("default", JStr "{notebook_path}")]);
                               ("NotebookEdit", JObj [("default", JStr "{notebook_path}")]);
                               ("mcp__serena__read_file",
                                JObj [("default", JStr "{relative_path}")])]);
                        ("mcpRules",
                         JObj [("mcp__ide__getDiagnostics",
                                JObj [("default", JStr "diagnostics")])])].
Proof.
  eexists. split; [reflexivity|].
  apply (run_ops_changes_rules_and_drops_only update_narrator_rules_v2_ops).
  reflexivity.
Defined.

(** X10: a successful run of the stripping loop keeps the rule names and
    their order, and changes of a rule nothing but the value under
    [captures]: every other key, [default] among them, reads as before. *)
Theorem strip_keeps_names_and_other_keys (data data' : json) :
  strip_capture_fields data = OK data' ->
  rule_names data' = rule_names data
  /\ forall name r,
       lookup_rule "rules" name data = Some r ->
       exists r',
         lookup_rule "rules" name data' = Some r'
         /\ forall k, k <> "captures" -> py_getitem r' k = py_getitem r k.
Proof.
  intros H. split.
  - apply strip_capture_fields_OK_inv in H as (m & rs & rs' & -> & Hm & Hrs & ->).
    unfold rule_names. rewrite dict_get_set_same, Hm.
    apply strip_entries_keys. now apply mapM_Forall2.
  - intros name r Hl.
    destruct (strip_capture_fields_lookup _ _ _ _ H Hl) as (r' & Hl' & Hr).
    exists r'. split; [assumption|]. intros k Hk.
    destruct (strip_rule_OK_inv _ _ Hr)
      as [[_ ->] | (f & cs & elems & new & -> & _ & _ & _ & ->)]; [reflexivity|].
    simpl. rewrite dict_get_set_other; [reflexivity | congruence].
Qed.

Lemma strip_keeps_names_and_other_keys_witness :
  exists data',
    strip_capture_fields scenario_c = OK data'
    /\ rule_names data' = rule_names scenario_c
    /\ forall name r,
         lookup_rule "rules" name scenario_c = Some r ->
         exists r',
           lookup_rule "rules" name data' = Some r'
           /\ forall k, k <> "captures" -> py_getitem r' k = py_getitem r k.
Proof.
  eexists. split; [reflexivity|].
  apply (strip_keeps_names_and_other_keys scenario_c). reflexivity.
Defined.

(** X13: a successful removal reports the matching names in the order of
    the dict, keeps the other names in their order, and the number it
    reports is the number of rules that are gone. *)
Theorem remove_rules_partitions_names
  (p : string -> bool) (data data' : json) (removed : list string) :
  remove_rules p data = OK (data', removed) ->
  removed = filter p (rule_names data)
  /\ rule_names data' = filter (fun k => negb (p k)) (rule_names data)
  /\ length removed + length (rule_names data') = length (rule_names data).
Proof.
  intros H. apply remove_rules_OK_inv in H as (m & rs & -> & Hm & -> & ->).
  unfold rule_names. rewrite dict_get_set_same, Hm.
  rewrite (keys_filter (fun k => negb (p k))).
  split; [reflexivity|]. split; [reflexivity|]. apply filter_length.
Qed.

Lemma remove_rules_partitions_names_witness :
  ["mcp__serena__read_file"] = filter is_mcp (rule_names doc_all_tools)
  /\ rule_names
       (JObj [("extensionTemplates", JObj [(".py", JStr "Python")]);
              ("rules",
               JObj [("Read", JObj [("default", JStr "{file_path}")]);
                     ("Write", JObj [("default", JStr "{file_path}")]);
                     ("Edit", JObj [("default", JStr "{file_path}")]);
                     ("NotebookRead", JObj [("default", JStr "{notebook_path}")]);
                     ("NotebookEdit", JObj [("default", JStr "{notebook_path}")])]);
              ("mcpRules",
               JObj [("mcp__ide__getDiagnostics", JObj [("default", JStr "diagnostics")])])])
     = filter (fun k => negb (is_mcp k)) (rule_names doc_all_tools)
  /\ length ["mcp__serena__read_file"]
     + length (rule_names
                 (JObj [("extensionTemplates", JObj [(".py", JStr "Python")]);
                        ("rules",
                         JObj [("Read", JObj [("default", JStr "{file_path}")]);
                               ("Write", JObj [("default", JStr "{file_path}")]);
                               ("Edit", JObj [("default", JStr "{file_path}")]);
                               ("NotebookRead", JObj [("default", JStr "{notebook_path}")]);
                               ("NotebookEdit", JObj [("default", JStr "{notebook_path}")])]);
                        ("mcpRules",
                         JObj [("mcp__ide__getDiagnostics",
                                JObj [("default", JStr "diagnostics")])])]))
     = length (rule_names doc_all_tools).
Proof.
  apply (remove_rules_partitions_names is_mcp doc_all_tools). reflexivity.
Defined.

Lemma filter_negated_nil {A : Type} (p : A -> bool) (l : list A) :
  filter p (filter (fun x => negb (p x)) l) = [].
Proof.
  rewrite filter_twice. induction l as [|x l IH]; simpl; [reflexivity|].
  now destruct (p x).
Qed.

Lemma remove_rules_again (p : string -> bool) (data data' : json) (removed : list string) :
  remove_rules p data = OK (data', removed) -> remove_rules p data' = OK (data', []).
Proof.
  intros H. apply remove_rules_OK_inv in H as (m & rs & -> & Hm & -> & ->).
  unfold remove_rules, py_getitem. rewrite dict_get_set_same. cbn [bind py_keys].
  rewrite (keys_filter (fun k => negb (p k))), filter_negated_nil. reflexivity.
Qed.

(** A run that stored a document and printed: its statements gave that
    document, and the document could be written. *)
Lemma run_script_Loads_OK_inv
  (body : json -> result (json * string)) (data data' : json) (out : string) :
  run_script body (Loads data) = (Loads data', OK out) ->
  body data = OK (data', out) /\ dumpable data' = true.
Proof.
  unfold run_script. destruct (body data) as [[d o]|e]; [|discriminate].
  destruct (dumpable d) eqn:E; [|discriminate].
  intros H. injection H as <- <-. auto.
Qed.

Lemma run_script_Loads_OK
  (body : json -> result (json * string)) (data data' : json) (out : string) :
  body data = OK (data', out) -> dumpable data' = true ->
  run_script body (Loads data) = (Loads data', OK out).
Proof.
  intros H Hd. unfold run_script. now rewrite H, Hd.
Qed.

(** When the statements leave what they produced as it is, a second run
    stores what the first run stored, whatever the first run did. *)
Lemma run_script_stores_again (body : json -> result (json * string)) (file : storage) :
  (forall data data' out,
     body data = OK (data', out) -> exists out', body data' = OK (data', out')) ->
  fst (run_script body (fst (run_script body file))) = fst (run_script body file).
Proof.
  intros Hbody. destruct file as [data|why]; [|reflexivity].
  unfold run_script at 2 3. destruct (body data) as [[d o]|e] eqn:E.
  - destruct (dumpable d) eqn:Hd; [|reflexivity]. cbn [fst].
    destruct (Hbody _ _ _ E) as (o' & E'). unfold run_script. now rewrite E', Hd.
  - cbn [fst]. unfold run_script. now rewrite E.
Qed.

(** X8: [update_narrator_rules.py] can be run again: a second run stores
    what the first run stored, and after a first run that ended without an
    exception it finds nothing to remove and prints the line for 0. *)
Theorem update_narrator_rules_rerun (file : storage) :
  fst (update_narrator_rules (fst (update_narrator_rules file)))
  = fst (update_narrator_rules file)
  /\ forall data' out,
       update_narrator_rules file = (Loads data', OK out) ->
       update_narrator_rules (Loads data') = (Loads data', OK (removed_message 0)).
Proof.
  split.
  - unfold update_narrator_rules. apply run_script_stores_again.
    intros data data' out H.
    apply bind_OK_inv in H as ([d removed] & Hr & H). injection H as <- _.
    rewrite (remove_rules_again _ _ _ _ Hr). simpl. eauto.
  - intros data' out H. destruct file as [data|why]; [|discriminate].
    unfold update_narrator_rules in *.
    apply run_script_Loads_OK_inv in H as [H Hd].
    apply bind_OK_inv in H as ([d removed] & Hr & H). injection H as <- _.
    apply run_script_Loads_OK; [|assumption].
    now rewrite (remove_rules_again _ _ _ _ Hr).
Qed.

(** ** [fix_filename_captures.py] as a whole *)

Lemma with_rule_lookup (name : string) (g : json -> result json) (data data' : json) :
  with_item data "rules" (fun rs => with_item rs name g) = OK data' ->
  exists r r',
    lookup_rule "rules" name data = Some r /\ g r = OK r'
    /\ lookup_rule "rules" name data' = Some r'.
Proof.
  intros H. apply with_rule_OK_inv in H as (m & rs & r & r' & -> & Hm & Hrs & Hg & ->).
  exists r, r'. split; [simpl; now rewrite Hm|]. split; [assumption|].
  apply lookup_rule_updated.
Qed.

Lemma set_captures_post (name : string) (cs : list json) (data data' : json) :
  set_captures name cs data = OK data' -> has_captures name cs data'.
Proof.
  intros H. apply with_rule_lookup in H as (r & r' & _ & Hg & Hl).
  destruct r as [| | | | | f]; try discriminate. injection Hg as <-.
  exists (dict_set "captures" (JArr cs) f). split; [assumption | apply dict_get_set_same].
Qed.

Lemma set_captures_fixed (name : string) (cs : list json) (data : json) :
  has_captures name cs data -> set_captures name cs data = OK data.
Proof.
  intros (f & Hl & Hc). apply lookup_rule_Some_inv in Hl as (m & rs & -> & Hm & Hrs).
  unfold set_captures. erewrite with_rule_OK; try eassumption; [|reflexivity].
  now rewrite (dict_set_same_value _ _ _ Hc), (dict_set_same_value _ _ _ Hrs),
    (dict_set_same_value _ _ _ Hm).
Qed.

Lemma assign_captures_leaves (name : string) (table : list (string * list json)) :
  ~ In name (map fst table) ->
  forallb (op_leaves_rule name) (assign_captures table) = true.
Proof.
  induction table as [|[r cs] table IH]; simpl; intros H; [reflexivity|].
  rewrite IH by tauto. rewrite andb_true_r.
  apply negb_true_iff, String.eqb_neq. intros ->. tauto.
Qed.

Lemma assign_captures_post (table : list (string * list json)) :
  forall data data',
    NoDup (map fst table) ->
    run_ops (assign_captures table) data = OK data' ->
    forall name cs, In (name, cs) table -> has_captures name cs data'.
Proof.
  induction table as [|[r cs0] table IH]; intros data data' Hnd H name cs Hin;
    [contradiction|].
  simpl in H. apply bind_OK_inv in H as (d1 & H1 & H).
  inversion Hnd as [|? ? Hr Hnd']; subst.
  destruct Hin as [Heq | Hin]; [|eapply IH; eassumption].
  injection Heq as <- <-. apply set_captures_post in H1 as (f & Hl & Hc).
  exists f. split; [|assumption].
  rewrite (run_ops_leaves_rule r _ _ _ (assign_captures_leaves _ _ Hr) H). exact Hl.
Qed.

Lemma assign_captures_fixed (table : list (string * list json)) (data : json) :
  (forall name cs, In (name, cs) table -> has_captures name cs data) ->
  run_ops (assign_captures table) data = OK data.
Proof.
  induction table as [|[r cs] table IH]; intros H; [reflexivity|].
  change (run_ops (assign_captures ((r, cs) :: table)) data)
    with (bind (set_captures r cs data) (run_ops (assign_captures table))).
  rewrite set_captures_fixed by (apply H; now left). cbn [bind].
  apply IH. intros name cs' Hin. apply H. now right.
Qed.

Lemma fix_filename_table_names : NoDup (map fst fix_filename_table).
Proof. apply nodup_keys_NoDup. reflexivity. Qed.

Lemma fix_filename_captures_ops_again (data data' : json) :
  run_ops fix_filename_captures_ops data = OK data' ->
  run_ops fix_filename_captures_ops data' = OK data'.
Proof.
  rewrite fix_filename_captures_ops_table. intros H.
  apply assign_captures_fixed.
  exact (assign_captures_post _ _ _ fix_filename_table_names H).
Qed.

(** X7: [fix_filename_captures.py] can be run again: a second run stores
    what the first run stored, and after a first run that ended without an
    exception it stores the same document once more and prints the same
    line. *)
Theorem fix_filename_captures_rerun (file : storage) :
  fst (fix_filename_captures (fst (fix_filename_captures file)))
  = fst (fix_filename_captures file)
  /\ forall data' out,
       fix_filename_captures file = (Loads data', OK out) ->
       fix_filename_captures (Loads data') = (Loads data', OK out).
Proof.
  split.
  - unfold fix_filename_captures, run_batch. apply run_script_stores_again.
    intros data data' out H. apply bind_OK_inv in H as (d & Hr & H).
    injection H as <- _. rewrite (fix_filename_captures_ops_again _ _ Hr).
    simpl. eauto.
  - intros data' out H. destruct file as [data|why]; [|discriminate].
    unfold fix_filename_captures, run_batch in *.
    apply run_script_Loads_OK_inv in H as [H Hd].
    apply bind_OK_inv in H as (d & Hr & H). injection H as <- <-.
    apply run_script_Loads_OK; [|assumption].
    now rewrite (fix_filename_captures_ops_again _ _ Hr).
Qed.

(** X14: after a run of [fix_filename_captures.py] that ended without an
    exception each of its five rules has exactly the two captures the
    script lists, the path capture and then [filename], whatever captures
    the rule had before, and so no [inputKey] twice. *)
Theorem fix_filename_captures_postcondition (data data' : json) (out : string) :
  fix_filename_captures (Loads data) = (Loads data', OK out) ->
  forall name cs,
    In (name, cs) fix_filename_table ->
    exists f,
      lookup_rule "rules" name data' = Some (JObj f)
      /\ dict_get "captures" f = Some (JArr cs)
      /\ captures_unique (JObj f) = true.
Proof.
  unfold fix_filename_captures, run_batch. intros H name cs Hin.
  apply run_script_Loads_OK_inv in H as [H _].
  apply bind_OK_inv in H as (d & E & H). injection H as <- _.
  rewrite fix_filename_captures_ops_table in E.
  destruct (assign_captures_post _ _ _ fix_filename_table_names E name cs Hin)
    as (f & Hl & Hc).
  exists f. split; [assumption|]. split; [assumption|].
  simpl. rewrite Hc.
  simpl in Hin. repeat (destruct Hin as [Heq | Hin]; [injection Heq as <- <-; reflexivity|]).
  contradiction.
Qed.

Lemma fix_filename_captures_postcondition_witness :
  exists data' out,
    fix_filename_captures (Loads doc_all_tools) = (Loads data', OK out)
    /\ forall name cs,
         In (name, cs) fix_filename_table ->
         exists f,
           lookup_rule "rules" name data' = Some (JObj f)
           /\ dict_get "captures" f = Some (JArr cs)
           /\ captures_unique (JObj f) = true.
Proof.
  eexists. eexists. split; [reflexivity|].
  eapply (fix_filename_captures_postcondition doc_all_tools). reflexivity.
Defined.

(** ** [update_narrator_rules_v2.py] as a whole *)

Lemma default_then_append (r t : string) (c : json) (data data' : json) :
  run_ops [SetDefault r t; AddCapture r c] data = OK data' ->
  exists f cs,
    lookup_rule "rules" r data' = Some (JObj f)
    /\ dict_get "default" f = Some (JStr t)
    /\ dict_get "captures" f = Some (JArr (cs ++ [c])).
Proof.
  intros H. simpl in H. apply bind_OK_inv in H as (d1 & H1 & H).
  apply bind_OK_inv in H as (d2 & H2 & H). injection H as <-.
  apply with_rule_lookup in H1 as (r0 & r1 & _ & Hg1 & Hl1).
  apply with_rule_lookup in H2 as (r1' & r2 & Hl1' & Hg2 & Hl2).
  rewrite Hl1 in Hl1'. injection Hl1' as <-.
  destruct r0 as [| | | | | f0]; try discriminate. injection Hg1 as <-.
  apply append_capture_OK_inv in Hg2 as (f1 & Hf1 & [[_ ->] | (cs & _ & ->)]);
    injection Hf1 as <-.
  - eexists. exists []. split; [eassumption|].
    split; [|apply dict_get_set_same].
    rewrite dict_get_set_other by discriminate. apply dict_get_set_same.
  - eexists. exists cs. split; [eassumption|].
    split; [|apply dict_get_set_same].
    rewrite dict_get_set_other by discriminate. apply dict_get_set_same.
Qed.

Lemma default_and_append_leaves (name : string) (table : list (string * (string * string))) :
  ~ In name (map fst table) ->
  forallb (op_leaves_rule name) (default_and_append table) = true.
Proof.
  induction table as [|[r [t k]] table IH]; simpl; intros H; [reflexivity|].
  rewrite IH by tauto. rewrite andb_true_r.
  assert (negb (String.eqb r name) = true) as ->; [|reflexivity].
  apply negb_true_iff, String.eqb_neq. intros ->. tauto.
Qed.

Lemma default_and_append_post (table : list (string * (string * string))) :
  forall data data',
    NoDup (map fst table) ->
    run_ops (default_and_append table) data = OK data' ->
    forall r t k,
      In (r, (t, k)) table ->
      exists f cs,
        lookup_rule "rules" r data' = Some (JObj f)
        /\ dict_get "default" f = Some (JStr t)
        /\ dict_get "captures" f = Some (JArr (cs ++ [cap_path k])).
Proof.
  induction table as [|[r0 [t0 k0]] table IH]; intros data data' Hnd H r t k Hin;
    [contradiction|].
  change (default_and_append ((r0, (t0, k0)) :: table))
    with ([SetDefault r0 t0; AddCapture r0 (cap_path k0)] ++ default_and_append table) in H.
  unfold run_ops in H. rewrite foldM_app in H.
  apply bind_OK_inv in H as (d2 & H2 & H).
  inversion Hnd as [|? ? Hr Hnd']; subst.
  destruct Hin as [Heq | Hin]; [|eapply IH; eassumption].
  injection Heq as <- <- <-.
  apply default_then_append in H2 as (f & cs & Hl & Hd & Hc).
  exists f, cs. split; [|auto].
  rewrite (run_ops_leaves_rule r0 _ _ _ (default_and_append_leaves _ _ Hr) H). exact Hl.
Qed.

Lemma v2_append_table_names : NoDup (map fst v2_append_table).
Proof. apply nodup_keys_NoDup. reflexivity. Qed.

Lemma update_narrator_rules_v2_ops_post (data data' : json) :
  run_ops update_narrator_rules_v2_ops data = OK data' ->
  py_contains "extensionTemplates" data' = OK false
  /\ (exists f,
        lookup_rule "rules" "Read" data' = Some (JObj f)
        /\ dict_get "default" f = Some (JStr "{filetype}「{filename}」を読み込みます")
        /\ dict_get "captures" f = Some (JArr [cap_path "file_path"]))
  /\ forall r t k,
       In (r, (t, k)) v2_append_table ->
       exists f cs,
         lookup_rule "rules" r data' = Some (JObj f)
         /\ dict_get "default" f = Some (JStr t)
         /\ dict_get "captures" f = Some (JArr (cs ++ [cap_path k])).
Proof.
  intros E. split; [|split].
  - destruct data as [| | | | | m].
    6: { apply run_ops_sections_inv in E as (m' & -> & Hm').
         simpl. unfold dict_mem. now rewrite (Hm' "extensionTemplates") by discriminate. }
    all: simpl in E; apply bind_OK_inv in E as (d1 & H1 & E);
      apply bind_OK_inv in E as (d2 & H2 & _);
      apply drop_section_OK_inv in H1 as [(m & Hm & _) | (_ & ->)];
      try discriminate;
      apply with_rule_OK_inv in H2 as (m & ? & ? & ? & Hm & _); discriminate.
  - rewrite update_narrator_rules_v2_ops_table in E.
    change (run_ops ([DropSection "extensionTemplates";
                      SetDefault "Read" "{filetype}「{filename}」を読み込みます"]
                     ++ [SetCaptures "Read" [cap_path "file_path"]]
                     ++ default_and_append v2_append_table) data = OK data') in E.
    unfold run_ops in E. rewrite foldM_app in E.
    apply bind_OK_inv in E as (d2 & H2 & E). rewrite foldM_app in E.
    apply bind_OK_inv in E as (d3 & H3 & E).
    simpl in H2. apply bind_OK_inv in H2 as (d1 & _ & H2).
    apply bind_OK_inv in H2 as (d2' & H2 & Heq). injection Heq as ->.
    apply with_rule_lookup in H2 as (r0 & r1 & _ & Hg1 & Hl1).
    destruct r0 as [| | | | | f0]; try discriminate. injection Hg1 as <-.
    simpl in H3. apply bind_OK_inv in H3 as (d3' & H3 & Heq). injection Heq as ->.
    apply with_rule_lookup in H3 as (r1' & r2 & Hl1' & Hg2 & Hl2).
    rewrite Hl1 in Hl1'. injection Hl1' as <-. injection Hg2 as <-.
    eexists. split.
    + rewrite (run_ops_leaves_rule "Read" _ _ _
                 (default_and_append_leaves "Read" v2_append_table
                    ltac:(simpl; intuition discriminate)) E).
      exact Hl2.
    + split; [|apply dict_get_set_same].
      rewrite dict_get_set_other by discriminate. apply dict_get_set_same.
  - rewrite update_narrator_rules_v2_ops_table in E.
    change (run_ops ([DropSection "extensionTemplates";
                      SetDefault "Read" "{filetype}「{filename}」を読み込みます";
                      SetCaptures "Read" [cap_path "file_path"]]
                     ++ default_and_append v2_append_table) data = OK data') in E.
    unfold run_ops in E. rewrite foldM_app in E.
    apply bind_OK_inv in E as (d3 & _ & E).
    exact (default_and_append_post _ _ _ v2_append_table_names E).
Qed.

(** X9: after a run of [update_narrator_rules_v2.py] that ended without an
    exception the document has no [extensionTemplates]; [Read] has the new
    template and exactly one capture, [file_path] with [parseFileType];
    and each of [Write], [Edit], [NotebookRead], [NotebookEdit] and
    [mcp__serena__read_file] has its new template and a captures list that
    ends with its path capture. *)
Theorem update_narrator_rules_v2_postcondition (data data' : json) (out : string) :
  update_narrator_rules_v2 (Loads data) = (Loads data', OK out) ->
  py_contains "extensionTemplates" data' = OK false
  /\ (exists f,
        lookup_rule "rules" "Read" data' = Some (JObj f)
        /\ dict_get "default" f = Some (JStr "{filetype}「{filename}」を読み込みます")
        /\ dict_get "captures" f = Some (JArr [cap_path "file_path"]))
  /\ forall r t k,
       In (r, (t, k)) v2_append_table ->
       exists f cs,
         lookup_rule "rules" r data' = Some (JObj f)
         /\ dict_get "default" f = Some (JStr t)
         /\ dict_get "captures" f = Some (JArr (cs ++ [cap_path k])).
Proof.
  unfold update_narrator_rules_v2, run_batch. intros H.
  apply run_script_Loads_OK_inv in H as [H _].
  apply bind_OK_inv in H as (d & E & H). injection H as -> _.
  now apply (update_narrator_rules_v2_ops_post data).
Qed.

Lemma update_narrator_rules_v2_postcondition_witness :
  exists data' out,
    update_narrator_rules_v2 (Loads doc_all_tools) = (Loads data', OK out)
    /\ py_contains "extensionTemplates" data' = OK false
    /\ (exists f,
          lookup_rule "rules" "Read" data' = Some (JObj f)
          /\ dict_get "default" f = Some (JStr "{filetype}「{filename}」を読み込みます")
          /\ dict_get "captures" f = Some (JArr [cap_path "file_path"]))
    /\ forall r t k,
         In (r, (t, k)) v2_append_table ->
         exists f cs,
           lookup_rule "rules" r data' = Some (JObj f)
           /\ dict_get "default" f = Some (JStr t)
           /\ dict_get "captures" f = Some (JArr (cs ++ [cap_path k])).
Proof.
  eexists. eexists. split; [reflexivity|].
  eapply (update_narrator_rules_v2_postcondition doc_all_tools). reflexivity.
Defined.

(** ** What the two rewriting scripts need *)

Lemma lookup_rule_In_names (name : string) (data r : json) :
  lookup_rule "rules" name data = Some r -> In name (rule_names data).
Proof.
  intros H. apply lookup_rule_Some_inv in H as (m & rs & -> & Hm & Hrs).
  unfold rule_names. rewrite Hm. apply dict_mem_keys, dict_mem_get. eauto.
Qed.

(** X15: the two scripts that rewrite rules by name end without an
    exception only on a document that already has every rule they name:
    the six rules of [update_narrator_rules_v2.py], the five of
    [fix_filename_captures.py]. *)
Theorem scripts_need_their_rules (data data' : json) (out : string) :
  (update_narrator_rules_v2 (Loads data) = (Loads data', OK out) ->
   forall r, In r ("Read" :: map fst v2_append_table) -> In r (rule_names data))
  /\ (fix_filename_captures (Loads data) = (Loads data', OK out) ->
      forall r, In r (map fst fix_filename_table) -> In r (rule_names data)).
Proof.
  split.
  - unfold update_narrator_rules_v2, run_batch. intros H r Hr.
    apply run_script_Loads_OK_inv in H as [H _].
    apply bind_OK_inv in H as (d & E & H). injection H as -> _.
    apply (run_ops_rule_names _ _ _ E).
    destruct (update_narrator_rules_v2_ops_post _ _ E) as (_ & (f & Hl & _) & Htab).
    destruct Hr as [<- | Hr]; [eapply lookup_rule_In_names; eassumption|].
    apply in_map_iff in Hr as ([r0 [t k]] & <- & Hin).
    destruct (Htab _ _ _ Hin) as (f' & cs & Hl' & _).
    eapply lookup_rule_In_names; eassumption.
  - unfold fix_filename_captures, run_batch. intros H r Hr.
    apply run_script_Loads_OK_inv in H as [H _].
    apply bind_OK_inv in H as (d & E & H). injection H as -> _.
    apply (run_ops_rule_names _ _ _ E).
    rewrite fix_filename_captures_ops_table in E.
    apply in_map_iff in Hr as ([r0 cs] & <- & Hin).
    destruct (assign_captures_post _ _ _ fix_filename_table_names E _ _ Hin)
      as (f & Hl & _).
    eapply lookup_rule_In_names; eassumption.
Qed.

(** ** Well-formed documents stay well-formed *)

Lemma wf_document_set_rules (m rs' : dict) :
  wf_document (JObj m) = true ->
  forallb (fun kv => wf_rule (snd kv)) rs' = true ->
  wf_document (JObj (dict_set "rules" (JObj rs') m)) = true.
Proof.
  unfold wf_document. intros H Hrs'. apply andb_prop in H as [_ Hmcp].
  rewrite dict_get_set_same, dict_get_set_other by discriminate.
  simpl. now rewrite Hrs', Hmcp.
Qed.

Lemma wf_document_rules (m rs : dict) :
  wf_document (JObj m) = true ->
  dict_get "rules" m = Some (JObj rs) ->
  forallb (fun kv => wf_rule (snd kv)) rs = true.
Proof.
  unfold wf_document. intros H Hm. rewrite Hm in H. now apply andb_prop in H as [H _].
Qed.

Lemma with_rule_preserves_wf (name : string) (g : json -> result json) (data data' : json) :
  wf_document data = true ->
  with_item data "rules" (fun rs => with_item rs name g) = OK data' ->
  (forall r r', wf_rule r = true -> g r = OK r' -> wf_rule r' = true) ->
  wf_document data' = true.
Proof.
  intros Hwf H Hg.
  apply with_rule_OK_inv in H as (m & rs & r & r' & -> & Hm & Hrs & Hr & ->).
  pose proof (wf_document_rules _ _ Hwf Hm) as Hall.
  apply wf_document_set_rules; [assumption|].
  apply forallb_dict_set; [assumption|]. apply (Hg r); [|assumption].
  rewrite forallb_forall in Hall. apply (Hall (name, r)). now apply dict_get_In.
Qed.

Lemma stripped_of_wf (c c' : json) :
  stripped_of c c' -> wf_capture c = true -> wf_capture c' = true.
Proof.
  intros (f & v & -> & Hv & ->). simpl. rewrite Hv. now destruct v.
Qed.

Lemma strip_rule_preserves_wf (r r' : json) :
  wf_rule r = true -> strip_rule r = OK r' -> wf_rule r' = true.
Proof.
  intros Hwf H.
  destruct (strip_rule_OK_inv _ _ H)
    as [[_ ->] | (f & cs & elems & new & -> & Hg & Hel & Hnew & ->)]; [assumption|].
  simpl in *. rewrite dict_get_set_same. rewrite Hg in Hwf.
  destruct cs as [| | | | cs |]; try discriminate. injection Hel as <-.
  apply mapM_Forall2 in Hnew. revert Hwf. clear -Hnew.
  induction Hnew as [|c c' cs new Hc _ IH]; simpl; [reflexivity|].
  intros Hwf. apply andb_prop in Hwf as [Hc0 Hwf].
  now rewrite (stripped_of_wf _ _ (keep_input_key_stripped _ _ Hc) Hc0), IH.
Qed.

Lemma strip_entries_wf (rs rs' : dict) :
  Forall2 (fun kv kv' => strip_entry kv = OK kv') rs rs' ->
  forallb (fun kv => wf_rule (snd kv)) rs = true ->
  forallb (fun kv => wf_rule (snd kv)) rs' = true.
Proof.
  induction 1 as [|[k v] [k' v'] rs rs' Hkv _ IH]; simpl; [reflexivity|].
  intros Hall. apply andb_prop in Hall as [Hv Hall].
  unfold strip_entry in Hkv. simpl in Hkv.
  apply bind_OK_inv in Hkv as (v0 & Hs & Hkv). injection Hkv as _ <-.
  now rewrite (strip_rule_preserves_wf _ _ Hv Hs), IH.
Qed.

Lemma apply_op_preserves_wf (o : op) (data data' : json) :
  wf_document data = true -> op_wf o = true ->
  apply_op o data = OK data' ->
  wf_document data' = true.
Proof.
  intros Hwf Ho H. destruct o as [s | r t | r cs | r c | | p]; simpl in H, Ho.
  - destruct data as [| | | | | m]; try discriminate.
    rewrite drop_section_obj in H. injection H as <-.
    apply negb_true_iff, String.eqb_neq in Ho.
    unfold wf_document in *. rewrite dict_get_del_other by assumption.
    apply andb_prop in Hwf as [-> Hmcp]. simpl.
    destruct (String.eqb s "mcpRules") eqn:E.
    + apply String.eqb_eq in E. subst. now rewrite dict_get_del_same.
    + apply String.eqb_neq in E. now rewrite dict_get_del_other.
  - apply (with_rule_preserves_wf _ _ _ _ Hwf H).
    intros r0 r' Hr Hg. destruct r0 as [| | | | | f]; try discriminate.
    injection Hg as <-. simpl in *. now rewrite dict_get_set_other by discriminate.
  - apply (with_rule_preserves_wf _ _ _ _ Hwf H).
    intros r0 r' Hr Hg. destruct r0 as [| | | | | f]; try discriminate.
    injection Hg as <-. simpl. now rewrite dict_get_set_same.
  - apply (with_rule_preserves_wf _ _ _ _ Hwf H).
    intros r0 r' Hr Hg.
    apply append_capture_OK_inv in Hg as (f & -> & [[Hc ->] | (cs0 & Hc & ->)]).
    + simpl. rewrite dict_get_set_same. simpl. now rewrite Ho.
    + simpl in *. rewrite dict_get_set_same. rewrite Hc in Hr.
      rewrite forallb_app. simpl. now rewrite Hr, Ho.
  - apply strip_capture_fields_OK_inv in H as (m & rs & rs' & -> & Hm & Hrs & ->).
    apply wf_document_set_rules; [assumption|].
    apply mapM_Forall2 in Hrs. apply (strip_entries_wf _ _ Hrs).
    eapply wf_document_rules; eassumption.
  - apply bind_OK_inv in H as ([d removed] & Hr & H). injection H as <-.
    apply remove_rules_OK_inv in Hr as (m & rs & -> & Hm & _ & ->).
    apply wf_document_set_rules; [assumption|].
    apply forallb_filter_incl. eapply wf_document_rules; eassumption.
Qed.

(** X16: a run that ended without an exception takes a well-formed
    document to a well-formed document, provided every capture it assigns
    or appends is a dict with a string [inputKey] and it does not drop
    [rules].  The statements of the four scripts are of that kind, so what
    a script stores can be given to any of the scripts again. *)
Theorem run_ops_preserves_wf (ops : list op) (data data' : json) :
  wf_document data = true ->
  forallb op_wf ops = true ->
  run_ops ops data = OK data' ->
  wf_document data' = true.
Proof.
  revert data. induction ops as [|o ops IH]; intros data Hwf Hops H; simpl in *.
  - now injection H as <-.
  - apply andb_prop in Hops as [Ho Hops].
    apply bind_OK_inv in H as (d1 & H1 & H).
    apply (IH d1); [|assumption|assumption].
    eapply apply_op_preserves_wf; eassumption.
Qed.

Lemma run_ops_preserves_wf_witness :
  exists data',
    run_ops (update_narrator_rules_v2_ops ++ fix_filename_captures_ops
             ++ update_captures_ops ++ [RemoveRules is_mcp]) doc_all_tools = OK data'
    /\ wf_document data' = true.
Proof.
  eexists. split; [reflexivity|].
  apply (run_ops_preserves_wf
           (update_narrator_rules_v2_ops ++ fix_filename_captures_ops
            ++ update_captures_ops ++ [RemoveRules is_mcp]) doc_all_tools);
    reflexivity.
Defined.

(** ** A capture without [inputKey] *)

Lemma mapM_raise {A B : Type} (f : A -> result B) (e : pyerr) (xs : list A) :
  (forall x, In x xs -> (exists y, f x = OK y) \/ f x = Raise e) ->
  (exists x, In x xs /\ f x = Raise e) ->
  mapM f xs = Raise e.
Proof.
  induction xs as [|x xs IH]; intros Hall (x0 & Hin & Hx0); [contradiction|].
  simpl. destruct (Hall x (or_introl eq_refl)) as [(y & Hy) | Hx].
  - rewrite Hy. simpl. rewrite IH; [reflexivity | intros; apply Hall; now right |].
    destruct Hin as [<- | Hin]; [congruence | eauto].
  - now rewrite Hx.
Qed.

Lemma forallb_false_exists {A : Type} (f : A -> bool) (l : list A) :
  forallb f l = false -> exists x, In x l /\ f x = false.
Proof.
  induction l as [|x l IH]; simpl; [discriminate|].
  destruct (f x) eqn:E; simpl; intros H.
  - destruct (IH H) as (y & Hy & Hfy). eauto.
  - eauto.
Qed.

Lemma keep_input_key_dict (c : json) :
  is_dict c = true ->
  (has_input_key c = true /\ exists c', keep_input_key c = OK c')
  \/ (has_input_key c = false /\ keep_input_key c = Raise (KeyError "inputKey")).
Proof.
  destruct c as [| | | | | f]; try discriminate. intros _.
  unfold keep_input_key, has_input_key, dict_mem, py_getitem.
  destruct (dict_get "inputKey" f) as [v|]; simpl; eauto.
Qed.

Lemma strip_rule_shape (r : json) :
  rule_shape r = true ->
  (rule_keys_present r = true /\ exists r', strip_rule r = OK r')
  \/ (rule_keys_present r = false /\ strip_rule r = Raise (KeyError "inputKey")).
Proof.
  destruct r as [| | | | | f]; try discriminate. simpl.
  unfold strip_rule, rule_keys_present. simpl. unfold dict_mem.
  destruct (dict_get "captures" f) as [v|]; simpl; [|eauto].
  destruct v as [| | | | cs |]; try discriminate. intros Hsh. simpl.
  rewrite forallb_forall in Hsh.
  destruct (forallb has_input_key cs) eqn:E.
  - left. split; [reflexivity|]. rewrite forallb_forall in E.
    destruct (mapM_total keep_input_key cs) as (new & Hnew).
    + intros c Hc. destruct (keep_input_key_dict c (Hsh c Hc)) as [[_ H] | [H _]];
        [assumption|]. rewrite (E c Hc) in H. discriminate.
    + rewrite Hnew. simpl. eauto.
  - right. split; [reflexivity|].
    rewrite (mapM_raise keep_input_key (KeyError "inputKey")); [reflexivity | |].
    + intros c Hc. destruct (keep_input_key_dict c (Hsh c Hc)) as [[_ H] | [_ H]]; auto.
    + apply forallb_false_exists in E as (c & Hc & Hk). exists c. split; [assumption|].
      destruct (keep_input_key_dict c (Hsh c Hc)) as [[H _] | [_ H]]; congruence.
Qed.

(** X17: on a document whose rules are dicts with lists of dicts as
    captures, where some capture has no [inputKey],
    [update_captures.py] ends with [KeyError] for [inputKey] and leaves the
    file as it was, the captures it had stripped before included. *)
Theorem update_captures_needs_inputKey (data : json) :
  rules_shape data = true ->
  keys_present data = false ->
  update_captures (Loads data) = (Loads data, Raise (KeyError "inputKey")).
Proof.
  intros Hsh Hk. destruct data as [| | | | | m]; try discriminate.
  simpl in Hsh, Hk. destruct (dict_get "rules" m) as [[| | | | | rs]|] eqn:Hm;
    try discriminate.
  unfold update_captures, run_batch, run_script, run_ops, update_captures_ops.
  rewrite foldM_cons. cbn [apply_op]. unfold strip_capture_fields, py_getitem.
  rewrite Hm. cbn [bind py_items].
  rewrite (mapM_raise strip_entry (KeyError "inputKey")); [reflexivity | |].
  - intros [k r] Hin. rewrite forallb_forall in Hsh.
    unfold strip_entry. simpl.
    destruct (strip_rule_shape r (Hsh _ Hin)) as [[_ (r' & ->)] | [_ ->]]; simpl; eauto.
  - apply forallb_false_exists in Hk as ([k r] & Hin & Hr). exists (k, r).
    split; [assumption|]. rewrite forallb_forall in Hsh.
    unfold strip_entry. simpl. simpl in Hr.
    destruct (strip_rule_shape r (Hsh _ Hin)) as [[H _] | [_ ->]]; [congruence | reflexivity].
Qed.

Lemma update_captures_needs_inputKey_witness :
  update_captures (Loads doc_capture_without_key)
  = (Loads doc_capture_without_key, Raise (KeyError "inputKey")).
Proof.
  apply (update_captures_needs_inputKey doc_capture_without_key); reflexivity.
Defined.

(** ** The uniqueness invariants along a run *)














(** ** When the dump can fail *)

(** On a document with a lone surrogate the statements of
    [update_captures.py] run through, the dump raises and leaves a file a
    second run cannot load. *)
Lemma dump_of_surrogate_cuts_file :
  strip_capture_fields doc_with_surrogate = OK doc_with_surrogate
  /\ update_captures (Loads doc_with_surrogate)
     = (Refuses NotJson, Raise UnicodeEncodeError)
  /\ update_captures (Refuses NotJson) = (Refuses NotJson, Raise JSONDecodeError).
Proof. repeat split. Qed.

Lemma dumpable_dict_get (k : string) (v : json) (d : dict) :
  dumpable (JObj d) = true -> dict_get k d = Some v ->
  encodable k = true /\ dumpable v = true.
Proof.
  intros Hd Hg. apply dict_get_In in Hg. simpl in Hd.
  rewrite forallb_forall in Hd. apply Hd in Hg. simpl in Hg.
  now apply andb_prop in Hg.
Qed.

Lemma dumpable_dict_set (k : string) (v : json) (d : dict) :
  dumpable (JObj d) = true -> encodable k = true -> dumpable v = true ->
  dumpable (JObj (dict_set k v d)) = true.
Proof.
  intros Hd Hk Hv. induction d as [|[k' v'] d IH]; cbn [dict_set].
  - simpl. now rewrite Hk, Hv.
  - simpl in Hd. apply andb_prop in Hd as [Hkv Hd]. apply andb_prop in Hkv as [Hk' Hv'].
    destruct (String.eqb k k').
    + simpl. now rewrite Hk', Hv, Hd.
    + specialize (IH Hd). simpl in *. now rewrite Hk', Hv', IH.
Qed.

Lemma with_item_preserves_dumpable (o : json) (k : string) (g : json -> result json)
  (o' : json) :
  dumpable o = true ->
  with_item o k g = OK o' ->
  (forall v v', dumpable v = true -> g v = OK v' -> dumpable v' = true) ->
  dumpable o' = true.
Proof.
  intros Hd H Hg. apply with_item_OK_inv in H as (d & v & v' & -> & Hk & Hv & ->).
  destruct (dumpable_dict_get _ _ _ Hd Hk) as [Hek Hdv].
  apply dumpable_dict_set; eauto.
Qed.

Lemma py_setitem_preserves_dumpable (r : json) (k : string) (v r' : json) :
  encodable k = true -> dumpable v = true ->
  dumpable r = true -> py_setitem r k v = OK r' -> dumpable r' = true.
Proof.
  intros Hk Hv Hr H. destruct r as [| | | | | f]; try discriminate.
  injection H as <-. now apply dumpable_dict_set.
Qed.

Lemma strip_rule_preserves_dumpable (r r' : json) :
  dumpable r = true -> strip_rule r = OK r' -> dumpable r' = true.
Proof.
  intros Hd H.
  destruct (strip_rule_OK_inv _ _ H)
    as [[_ ->] | (f & cs & elems & new & -> & Hg & Hel & Hnew & ->)]; [assumption|].
  destruct (dumpable_dict_get _ _ _ Hd Hg) as [_ Hcs].
  apply dumpable_dict_set; [assumption | reflexivity |].
  assert (Helems : forallb dumpable elems = true).
  { destruct cs as [| | | s | cs | d]; try discriminate; injection Hel as <-.
    - apply mapM_Forall2 in Hnew. destruct s; [reflexivity|].
      inversion Hnew. discriminate.
    - exact Hcs.
    - apply mapM_Forall2 in Hnew. destruct d; [reflexivity|].
      inversion Hnew. discriminate. }
  apply mapM_Forall2 in Hnew. simpl. revert Helems. clear -Hnew.
  induction Hnew as [|c c' elems new Hc _ IH]; simpl; [reflexivity|].
  intros Hall. apply andb_prop in Hall as [Hdc Hall]. rewrite (IH Hall), andb_true_r.
  apply keep_input_key_stripped in Hc as (f & v & -> & Hv & ->).
  destruct (dumpable_dict_get _ _ _ Hdc Hv) as [_ Hdv]. simpl. now rewrite Hdv.
Qed.

Lemma strip_entries_dumpable (rs rs' : dict) :
  Forall2 (fun kv kv' => strip_entry kv = OK kv') rs rs' ->
  dumpable (JObj rs) = true -> dumpable (JObj rs') = true.
Proof.
  induction 1 as [|[k v] [k' v'] rs rs' Hkv _ IH]; simpl; [reflexivity|].
  intros Hall. apply andb_prop in Hall as [Hkv0 Hall].
  apply andb_prop in Hkv0 as [Hk Hv].
  unfold strip_entry in Hkv. simpl in Hkv.
  apply bind_OK_inv in Hkv as (v0 & Hs & Hkv). injection Hkv as <- <-.
  rewrite Hk, (strip_rule_preserves_dumpable _ _ Hv Hs). simpl. now apply IH.
Qed.

Lemma dumpable_filter (q : string * json -> bool) (d : dict) :
  dumpable (JObj d) = true -> dumpable (JObj (filter q d)) = true.
Proof. simpl. apply forallb_filter_incl. Qed.

(** One statement keeps the document writable, when what it adds is. *)
Lemma apply_op_preserves_dumpable (o : op) (data data' : json) :
  dumpable data = true -> op_dumpable o = true ->
  apply_op o data = OK data' ->
  dumpable data' = true.
Proof.
  intros Hd Ho H. destruct o as [s | r t | r cs | r c | | p]; simpl in H, Ho.
  - apply drop_section_OK_inv in H as [(m & -> & ->) | (_ & ->)]; [|assumption].
    now apply dumpable_filter.
  - apply (with_item_preserves_dumpable _ _ _ _ Hd H). intros rs rs' Hrs Hg.
    apply (with_item_preserves_dumpable _ _ _ _ Hrs Hg). intros r0 r' Hr0.
    now apply py_setitem_preserves_dumpable.
  - apply (with_item_preserves_dumpable _ _ _ _ Hd H). intros rs rs' Hrs Hg.
    apply (with_item_preserves_dumpable _ _ _ _ Hrs Hg). intros r0 r' Hr0.
    now apply py_setitem_preserves_dumpable.
  - apply (with_item_preserves_dumpable _ _ _ _ Hd H). intros rs rs' Hrs Hg.
    apply (with_item_preserves_dumpable _ _ _ _ Hrs Hg). intros r0 r' Hr0 Ha.
    apply append_capture_OK_inv in Ha as (f & -> & [[_ ->] | (cs0 & Hc & ->)]).
    + apply dumpable_dict_set; [assumption | reflexivity |]. simpl. now rewrite Ho.
    + destruct (dumpable_dict_get _ _ _ Hr0 Hc) as [_ Hcs].
      apply dumpable_dict_set; [assumption | reflexivity |].
      simpl in *. rewrite forallb_app. simpl. now rewrite Hcs, Ho.
  - apply strip_capture_fields_OK_inv in H as (m & rs & rs' & -> & Hm & Hrs & ->).
    destruct (dumpable_dict_get _ _ _ Hd Hm) as [_ Hdrs].
    apply dumpable_dict_set; [assumption | reflexivity |].
    apply mapM_Forall2 in Hrs. now apply (strip_entries_dumpable _ _ Hrs).
  - apply bind_OK_inv in H as ([d removed] & Hr & H). injection H as <-.
    apply remove_rules_OK_inv in Hr as (m & rs & -> & Hm & _ & ->).
    destruct (dumpable_dict_get _ _ _ Hd Hm) as [_ Hdrs].
    apply dumpable_dict_set; [assumption | reflexivity |]. now apply dumpable_filter.
Qed.

Lemma run_ops_preserves_dumpable (ops : list op) (data data' : json) :
  dumpable data = true -> forallb op_dumpable ops = true ->
  run_ops ops data = OK data' ->
  dumpable data' = true.
Proof.
  revert data. induction ops as [|o ops IH]; intros data Hd Hops H; simpl in *.
  - now injection H as <-.
  - apply andb_prop in Hops as [Ho Hops].
    apply bind_OK_inv in H as (d1 & H1 & H).
    apply (IH d1); [|assumption|assumption].
    eapply apply_op_preserves_dumpable; eassumption.
Qed.

(** X18: the dump fails only on what the file brought along: when no string
    of the loaded document holds a lone surrogate and the statements, which
    add none, run through, the script stores the document they gave and
    prints its line.  This holds of the three scripts that are a batch of
    statements and of [update_narrator_rules.py], which prints the number
    of removed rules. *)
Theorem dumpable_document_is_written (data : json) :
  dumpable data = true ->
  (forall ops out data',
     forallb op_dumpable ops = true ->
     run_ops ops data = OK data' ->
     run_batch ops out (Loads data) = (Loads data', OK out))
  /\ (forall data' removed,
        remove_rules is_mcp data = OK (data', removed) ->
        update_narrator_rules (Loads data)
        = (Loads data', OK (removed_message (length removed)))).
Proof.
  intros Hd. split.
  - intros ops out data' Hops H.
    pose proof (run_ops_preserves_dumpable _ _ _ Hd Hops H) as Hd'.
    unfold run_batch. apply run_script_Loads_OK; [|assumption]. now rewrite H.
  - intros data' removed Hr. unfold update_narrator_rules.
    apply run_script_Loads_OK; [now rewrite Hr|].
    apply (apply_op_preserves_dumpable (RemoveRules is_mcp) data); [assumption | reflexivity|].
    simpl. now rewrite Hr.
Qed.

Lemma dumpable_document_is_written_witness :
  (forall ops out data',
     forallb op_dumpable ops = true ->
     run_ops ops doc_all_tools = OK data' ->
     run_batch ops out (Loads doc_all_tools) = (Loads data', OK out))
  /\ (forall data' removed,
        remove_rules is_mcp doc_all_tools = OK (data', removed) ->
        update_narrator_rules (Loads doc_all_tools)
        = (Loads data', OK (removed_message (length removed)))).
Proof.
  apply (dumpable_document_is_written doc_all_tools). reflexivity.
Defined.

(** The statements of the four scripts add no string that cannot be
    encoded. *)
Lemma scripts_ops_dumpable :
  forallb op_dumpable
    (update_captures_ops ++ update_narrator_rules_v2_ops ++ fix_filename_captures_ops)
  = true.
Proof. reflexivity. Qed.
